(** * WebClient: a shallow embedding of the HTTP(S) client wrapper

    The development follows the TypeScript sources: [Http.ts] (the method
    enumeration) and the client module (URL helpers, [asyncRequest],
    [fillRequestOptionDefaults] and the [WebClient] class).

    JavaScript strings are modelled by [string] (a sequence of code units),
    the three regular expressions of the client by a small backtracking
    matcher, optional object properties by [prop], and calls that may throw
    or return a promise by [completion] and [promise]. *)

From Stdlib Require Import String Ascii List Bool ZArith.
Import ListNotations.
Local Open Scope string_scope.

(** ** Regular expressions

    The fragment of the JavaScript regular expression language the client
    uses: literal characters, the greedy quantifiers [?], [*] and [+] on one
    character, and the assertions [^] and [$] (no [m] flag: start and end of
    the input). *)

Module RegExp.

Inductive atom : Type :=
| Lit (c : ascii)      (* c  *)
| Opt (c : ascii)      (* c? *)
| Star (c : ascii)     (* c* *)
| Plus (c : ascii)     (* c+ *)
| Bol                  (* ^  *)
| Eol.                 (* $  *)

Definition t : Type := list atom.

(** [greedy c k bol s]: consume as many [c] as possible, then continue with
    [k]; on failure of [k] give back one [c] at a time. *)
Fixpoint greedy (c : ascii) (k : bool -> string -> option string)
    (bol : bool) (s : string) : option string :=
  match s with
  | String a s' =>
      if Ascii.eqb a c then
        match greedy c k false s' with
        | Some rest => Some rest
        | None => k bol s
        end
      else k bol s
  | EmptyString => k bol s
  end.

(** [match_here r bol s]: match [r] at the current position, where [bol]
    tells whether that position is index 0 of the input and [s] is the input
    from there on. The result is the input left after the match. *)
Fixpoint match_here (r : t) : bool -> string -> option string :=
  match r with
  | [] => fun _ s => Some s
  | Lit c :: r' => fun _ s =>
      match s with
      | String a s' => if Ascii.eqb a c then match_here r' false s' else None
      | EmptyString => None
      end
  | Opt c :: r' => fun bol s =>
      match s with
      | String a s' =>
          if Ascii.eqb a c then
            match match_here r' false s' with
            | Some rest => Some rest
            | None => match_here r' bol s
            end
          else match_here r' bol s
      | EmptyString => match_here r' bol s
      end
  | Star c :: r' => greedy c (match_here r')
  | Plus c :: r' => fun _ s =>
      match s with
      | String a s' =>
          if Ascii.eqb a c then greedy c (match_here r') false s' else None
      | EmptyString => None
      end
  | Bol :: r' => fun bol s => if bol then match_here r' bol s else None
  | Eol :: r' => fun bol s =>
      match s with
      | EmptyString => match_here r' bol s
      | String _ _ => None
      end
  end.

(** [search r bol s]: the leftmost match of [r] in [s], as the text before
    the match and the text after it. *)
Fixpoint search (r : t) (bol : bool) (s : string) : option (string * string) :=
  match match_here r bol s with
  | Some rest => Some ("", rest)
  | None =>
      match s with
      | EmptyString => None
      | String a s' =>
          match search r false s' with
          | Some (before, rest) => Some (String a before, rest)
          | None => None
          end
      end
  end.

(** [RegExp.prototype.test] *)
Definition test (r : t) (s : string) : bool :=
  match search r true s with
  | Some _ => true
  | None => false
  end.

(** [String.prototype.replace] with a regular expression without the [g]
    flag and a replacement text free of [$] patterns: the first match is
    replaced, a string without a match is returned as it is. *)
Definition replace (r : t) (replacement : string) (s : string) : string :=
  match search r true s with
  | Some (before, rest) => before ++ replacement ++ rest
  | None => s
  end.

End RegExp.

(** [String.prototype.startsWith] *)
Definition startsWith (s : string) (searchString : string) : bool :=
  String.prefix searchString s.

(** ** Http.ts *)

Module Http.

Inductive Method : Type :=
| connect | delete | get | head | options | patch | post | put | trace.

Definition Method_value (m : Method) : string :=
  match m with
  | connect => "CONNECT"
  | delete => "DELETE"
  | get => "GET"
  | head => "HEAD"
  | options => "OPTIONS"
  | patch => "PATCH"
  | post => "POST"
  | put => "PUT"
  | trace => "TRACE"
  end.

End Http.

(** ** URL helpers *)

(** [/^https?:/] *)
Definition re_protocol : RegExp.t :=
  [RegExp.Bol; RegExp.Lit "h"; RegExp.Lit "t"; RegExp.Lit "t"; RegExp.Lit "p";
   RegExp.Opt "s"; RegExp.Lit ":"].

(** [/\/*$/] *)
Definition re_trailing_slashes : RegExp.t := [RegExp.Star "/"; RegExp.Eol].

(** [/^\/+/] *)
Definition re_leading_slashes : RegExp.t := [RegExp.Bol; RegExp.Plus "/"].

Definition hasProtocol (url : string) : bool :=
  RegExp.test re_protocol url.

Definition hasSecureProtocol (url : string) : bool :=
  startsWith url "https:".

(** ** JavaScript objects, calls and promises *)

(** An optional property of an object: the key is absent, present with the
    value [undefined], or present with a value. *)
Inductive prop (A : Type) : Type :=
| Absent
| Undefined
| Value (a : A).

Arguments Absent {A}.
Arguments Undefined {A}.
Arguments Value {A} a.

(** Property access [o.k]: [None] stands for [undefined]. The tests
    [o.k == null] and [o.k != null] of the client are matches on it. *)
Definition read {A : Type} (p : prop A) : option A :=
  match p with
  | Value a => Some a
  | Absent | Undefined => None
  end.

(** One key of [{ ...base, ...over }]: every own key of [over] wins, whatever
    its value. *)
Definition spread {A : Type} (base over : prop A) : prop A :=
  match over with
  | Absent => base
  | Undefined | Value _ => over
  end.

(** [x ?? d] *)
Definition nullish {A : Type} (x : option A) (d : A) : A :=
  match x with
  | Some a => a
  | None => d
  end.

(** Values that are thrown or passed to [reject]: the [TypeError]s the client
    creates, and any other value, of a type [Thrown] left to the environment. *)
Inductive error (Thrown : Type) : Type :=
| TypeError (message : string)
| Other (v : Thrown).

Arguments TypeError {Thrown} message.
Arguments Other {Thrown} v.

(** How a synchronous call completes. *)
Inductive completion (E A : Type) : Type :=
| Normal (a : A)
| Throw (e : E).

Arguments Normal {E A} a.
Arguments Throw {E A} e.

(** A promise, by the state it ends in; [Pending] is a promise that never
    settles. A call that returns a promise is followed until then, so the
    world it leaves is the world once the promise has settled. *)
Inductive promise (E A : Type) : Type :=
| Fulfilled (a : A)
| Rejected (e : E)
| Pending.

Arguments Fulfilled {E A} a.
Arguments Rejected {E A} e.
Arguments Pending {E A}.

(** The [resolve] and [reject] functions of a promise: only the first call
    settles it. *)
Definition resolve {E A : Type} (a : A) (p : promise E A) : promise E A :=
  match p with
  | Pending => Fulfilled a
  | Fulfilled _ | Rejected _ => p
  end.

Definition reject {E A : Type} (e : E) (p : promise E A) : promise E A :=
  match p with
  | Pending => Rejected e
  | Fulfilled _ | Rejected _ => p
  end.

(** ** Interfaces of the client module *)

Definition IncomingHttpHeaders : Type := list (string * list string).

Module InternalResponse.
Record t : Type := mk {
  headers : IncomingHttpHeaders;
  rawData : string;
  statusCode : Z;
  statusMessage : string;
  trailers : list (string * option string)
}.
End InternalResponse.

Module RequestOptions.
Record t : Type := mk {
  method : prop Http.Method;
  url : string
}.
End RequestOptions.

Module Response.
Record t : Type := mk {
  headers : IncomingHttpHeaders;
  rawData : string;
  statusCode : Z;
  statusMessage : string;
  trailers : list (string * option string);
  requestOptions : RequestOptions.t
}.

(** [{ ...internalResponse, requestOptions }] *)
Definition assemble (internalResponse : InternalResponse.t)
    (requestOptions : RequestOptions.t) : t :=
  mk (InternalResponse.headers internalResponse)
     (InternalResponse.rawData internalResponse)
     (InternalResponse.statusCode internalResponse)
     (InternalResponse.statusMessage internalResponse)
     (InternalResponse.trailers internalResponse)
     requestOptions.
End Response.

(** [{ ...a, ...b }] on [WebClientOptions]; [F] is [typeof asyncRequest]. *)
Module WebClientOptions.
Record t (F : Type) : Type := mk {
  baseUrl : prop string;
  defaultMethod : prop Http.Method;
  limiter : prop (F -> F)
}.
Arguments mk {F} baseUrl defaultMethod limiter.
Arguments baseUrl {F} t.
Arguments defaultMethod {F} t.
Arguments limiter {F} t.

Definition spread {F : Type} (a : t F) (b : option (t F)) : t F :=
  match b with
  | None => a
  | Some b =>
      mk (spread (baseUrl a) (baseUrl b))
         (spread (defaultMethod a) (defaultMethod b))
         (spread (limiter a) (limiter b))
  end.
End WebClientOptions.

(** The private fields of a [WebClient]. *)
Module WebClient.
Record t (F : Type) : Type := mk {
  options : WebClientOptions.t F;
  requestFn : F
}.
Arguments mk {F} options requestFn.
Arguments options {F} t.
Arguments requestFn {F} t.
End WebClient.

(** The part of [https.RequestOptions] the client fills in; [None] is a
    [method] key holding [undefined]. *)
Module InternalRequestOptions.
Record t : Type := mk {
  method : option Http.Method
}.
End InternalRequestOptions.

(** ** The [http] and [https] modules of Node *)

(** The response object handed to the callback of [request]; [trailers] is
    what the object holds when ['end'] is emitted. *)
Module IncomingMessage.
Record t : Type := mk {
  headers : IncomingHttpHeaders;
  statusCode : Z;
  statusMessage : string;
  trailers : list (string * option string)
}.
End IncomingMessage.

(** What Node delivers to the listeners of one request. *)
Inductive event (Thrown : Type) : Type :=
| RequestError (e : error Thrown)         (* 'error' on the request *)
| WriteCallback (e : error Thrown)        (* the callback given to write *)
| ResponseCallback (response : IncomingMessage.t)
| ResponseData (chunk : string)           (* 'data' on the response: the
                                             chunk as the string it is
                                             converted to, on its own, by
                                             [result += chunk] *)
| ResponseEnd                             (* 'end' on the response *)
| ResponseError (e : error Thrown).       (* 'error' on the response *)

Arguments RequestError {Thrown} e.
Arguments WriteCallback {Thrown} e.
Arguments ResponseCallback {Thrown} response.
Arguments ResponseData {Thrown} chunk.
Arguments ResponseEnd {Thrown}.
Arguments ResponseError {Thrown} e.

(** [World] is the state of everything outside the client (network, rate
    limiter); [Body] is the type of request bodies. [requestHttp] and
    [requestHttps] stand for one use of [request] of [http] and of [https]
    with the given URL, options and written body: the call throws, or the
    listed events are delivered in order. *)
Class NodeHttp : Type := {
  World : Type;
  Body : Type;
  Thrown : Type;
  requestHttp : string -> InternalRequestOptions.t -> option Body ->
                World -> completion (error Thrown) (list (event Thrown)) * World;
  requestHttps : string -> InternalRequestOptions.t -> option Body ->
                 World -> completion (error Thrown) (list (event Thrown)) * World
}.

Section Client.

Context `{NodeHttp}.

Definition err : Type := error Thrown.

(** A call with effects on the world. *)
Definition call (A : Type) : Type := World -> completion err A * World.

(** The body of an [async] function: it returns, throws, or waits for ever. *)
Definition async_body (A : Type) : Type := World -> promise err A * World.

Definition ret {A : Type} (a : A) : async_body A := fun w => (Fulfilled a, w).

Definition bind {A B : Type} (m : async_body A) (k : A -> async_body B) : async_body B :=
  fun w =>
    match m w with
    | (Fulfilled a, w') => k a w'
    | (Rejected e, w') => (Rejected e, w')
    | (Pending, w') => (Pending, w')
    end.

(** A call of a synchronous function inside the body. *)
Definition try {A : Type} (c : completion err A) : async_body A :=
  fun w =>
    match c with
    | Normal a => (Fulfilled a, w)
    | Throw e => (Rejected e, w)
    end.

(** [await f(...)]: a throw of the call and a rejection of its promise are
    both thrown at the [await]. *)
Definition await {A : Type} (c : call (promise err A)) : async_body A :=
  fun w =>
    match c w with
    | (Normal p, w') => (p, w')
    | (Throw e, w') => (Rejected e, w')
    end.

(** Calling an [async] function never throws: it returns a promise that is
    settled by the outcome of the body. *)
Definition async {A : Type} (b : async_body A) : call (promise err A) :=
  fun w => let (p, w') := b w in (Normal p, w').

End Client.

Declare Scope async_scope.
Delimit Scope async_scope with async.
Notation "x <- m ;; k" := (bind m (fun x => k))
  (at level 61, m at next level, right associativity) : async_scope.

Section ClientModule.

Context `{NodeHttp}.

Local Open Scope async_scope.

(** [typeof asyncRequest] *)
Definition transport : Type :=
  string -> InternalRequestOptions.t -> option Body -> bool ->
  call (promise err InternalResponse.t).

(** *** asyncRequest *)

(** The listeners [asyncRequest] registers share the promise under
    construction; the listeners on the response also share the response
    object and the text accumulated in [result]. The callback of [request]
    is a one-time listener: only the first response installs them.
    [result += chunk] appends the string the chunk is converted to, which is
    what a [ResponseData] event carries. *)
Record listeners : Type := mk_listeners {
  on_response : option (IncomingMessage.t * string);
  settled : promise err InternalResponse.t
}.

Definition deliver (body : option Body) (st : listeners) (ev : event Thrown)
    : listeners :=
  match ev with
  | RequestError e =>
      mk_listeners (on_response st) (reject e (settled st))
  | WriteCallback e =>
      match body with
      | Some _ => mk_listeners (on_response st) (reject e (settled st))
      | None => st
      end
  | ResponseCallback response =>
      match on_response st with
      | None => mk_listeners (Some (response, "")) (settled st)
      | Some _ => st
      end
  | ResponseData chunk =>
      match on_response st with
      | Some (response, result) =>
          mk_listeners (Some (response, result ++ chunk)) (settled st)
      | None => st
      end
  | ResponseEnd =>
      match on_response st with
      | Some (response, result) =>
          mk_listeners (on_response st)
            (resolve
               (InternalResponse.mk
                  (IncomingMessage.headers response)
                  result
                  (IncomingMessage.statusCode response)
                  (IncomingMessage.statusMessage response)
                  (IncomingMessage.trailers response))
               (settled st))
      | None => st
      end
  | ResponseError e =>
      match on_response st with
      | Some _ => mk_listeners (on_response st) (reject e (settled st))
      | None => st
      end
  end.

(** The listeners after the delivery of [events]. *)
Definition delivered (body : option Body) (events : list (event Thrown))
    : listeners :=
  fold_left (deliver body) events (mk_listeners None Pending).

(** [new Promise(function (resolve, reject) { ... })] around one use of
    [performRequest]: a throw of the executor rejects the promise, otherwise
    the events settle it. *)
Definition new_Promise (body : option Body)
    (performed : completion err (list (event Thrown)) * World)
    : promise err InternalResponse.t * World :=
  match performed with
  | (Throw e, w) => (Rejected e, w)
  | (Normal events, w) =>
      (settled (delivered body events), w)
  end.

Definition asyncRequest : transport :=
  fun url options body secure =>
    let performRequest := if secure then requestHttps else requestHttp in
    async (fun w => new_Promise body (performRequest url options body w)).

(** *** fillRequestOptionDefaults *)

(** [const newOptions = { method: ..., ...options }] *)
Definition newOptions (options : RequestOptions.t)
    (clientOptions : WebClientOptions.t transport) : RequestOptions.t :=
  RequestOptions.mk
    (spread
       (Value (nullish (read (WebClientOptions.defaultMethod clientOptions))
                 Http.get))
       (RequestOptions.method options))
    (RequestOptions.url options).

Definition fillRequestOptionDefaults (options : RequestOptions.t)
    (clientOptions : WebClientOptions.t transport)
    : completion err RequestOptions.t :=
  let newOptions := newOptions options clientOptions in
  if negb (hasProtocol (RequestOptions.url options)) then
    match read (WebClientOptions.baseUrl clientOptions) with
    | None =>
        Throw (TypeError
                 "`url` doesn't include a protocol and `baseUrl` isn't set")
    | Some baseUrl =>
        Normal
          (RequestOptions.mk
             (RequestOptions.method newOptions)
             (RegExp.replace re_trailing_slashes "/" baseUrl ++
              RegExp.replace re_leading_slashes "" (RequestOptions.url options)))
    end
  else Normal newOptions.

(** *** class WebClient *)

(** [new WebClient(options)]. The call of the limiter is taken to return:
    a limiter that throws is outside this model, and what is stated about
    the outcome of a construction with a limiter assumes that it returns. *)
Definition constructor (options : WebClientOptions.t transport)
    : completion err (WebClient.t transport) :=
  if match read (WebClientOptions.baseUrl options) with
     | Some baseUrl => negb (hasProtocol baseUrl)
     | None => false
     end
  then Throw (TypeError "`baseUrl` doesn't include a protocol")
  else
    Normal
      (WebClient.mk options
         (match read (WebClientOptions.limiter options) with
          | Some limiter => limiter asyncRequest
          | None => asyncRequest
          end)).

Definition extend (this : WebClient.t transport)
    (options : option (WebClientOptions.t transport))
    : completion err (WebClient.t transport) :=
  constructor (WebClientOptions.spread (WebClient.options this) options).

Definition request (this : WebClient.t transport) (options : RequestOptions.t)
    : call (promise err Response.t) :=
  async (
    filledOptions <-
      try (fillRequestOptionDefaults options (WebClient.options this)) ;;
    internalResponse <-
      await (WebClient.requestFn this
               (RequestOptions.url filledOptions)
               (InternalRequestOptions.mk
                  (read (RequestOptions.method filledOptions)))
               None
               (hasSecureProtocol (RequestOptions.url filledOptions))) ;;
    ret (Response.assemble internalResponse filledOptions)).

End ClientModule.

(** ** The URL resolution as the specification words it *)

Fixpoint slashes (n : nat) : string :=
  match n with
  | O => ""
  | S n' => String "/" (slashes n')
  end.

(** "[options.url] with all leading slashes stripped" *)
Fixpoint strip_leading_slashes (s : string) : string :=
  match s with
  | String a s' => if Ascii.eqb a "/" then strip_leading_slashes s' else s
  | EmptyString => EmptyString
  end.

(** "stripping all trailing slashes from [baseUrl]" *)
Fixpoint strip_trailing_slashes (s : string) : string :=
  match s with
  | String a s' =>
      match strip_trailing_slashes s' with
      | EmptyString => if Ascii.eqb a "/" then EmptyString else String a EmptyString
      | String b t => String a (String b t)
      end
  | EmptyString => EmptyString
  end.

(** "stripping all trailing slashes from [baseUrl], appending exactly one
    slash, then appending [options.url] with all leading slashes stripped" *)
Definition resolved_url_spec (baseUrl url : string) : string :=
  strip_trailing_slashes baseUrl ++ "/" ++ strip_leading_slashes url.

(** "the shallow merge of the current instance's configuration with the
    supplied overrides (overrides win on conflicting keys)" *)
Definition has_key {A : Type} (p : prop A) : bool :=
  match p with
  | Absent => false
  | Undefined | Value _ => true
  end.

Definition shallow_merge {F : Type} (current : WebClientOptions.t F)
    (overrides : option (WebClientOptions.t F)) : WebClientOptions.t F :=
  match overrides with
  | None => current
  | Some o =>
      WebClientOptions.mk
        (if has_key (WebClientOptions.baseUrl o)
         then WebClientOptions.baseUrl o else WebClientOptions.baseUrl current)
        (if has_key (WebClientOptions.defaultMethod o)
         then WebClientOptions.defaultMethod o
         else WebClientOptions.defaultMethod current)
        (if has_key (WebClientOptions.limiter o)
         then WebClientOptions.limiter o else WebClientOptions.limiter current)
  end.

(** ** A scripted environment, for concrete runs

    The world is the log of what reached Node and the rate limiter; both
    [request] functions answer with the same scripted reply. *)

Inductive log : Type :=
| ViaHttp (url : string) (options : InternalRequestOptions.t)
    (body : option string)
| ViaHttps (url : string) (options : InternalRequestOptions.t)
    (body : option string)
| Limited (url : string).

Definition scripted
    (reply : completion (error string) (list (event string))) : NodeHttp :=
  {| World := list log;
     Body := string;
     Thrown := string;
     requestHttp := fun url options body w =>
       (reply, (w ++ [ViaHttp url options body])%list);
     requestHttps := fun url options body w =>
       (reply, (w ++ [ViaHttps url options body])%list) |}.

Definition reply_ok : completion (error string) (list (event string)) :=
  Normal
    [ResponseCallback (IncomingMessage.mk [] 200 "OK" []);
     ResponseData "hel"; ResponseData "lo"; ResponseEnd].

Definition reply_refused : completion (error string) (list (event string)) :=
  Normal [RequestError (Other "ECONNREFUSED")].

(** A limiter that records every call it lets through. *)
Definition logging_limiter
    (reply : completion (error string) (list (event string)))
    (fn : @transport (scripted reply)) : @transport (scripted reply) :=
  fun url options body secure w =>
    fn url options body secure (w ++ [Limited url])%list.

Definition no_options {N : NodeHttp} : WebClientOptions.t (@transport N) :=
  WebClientOptions.mk Absent Absent Absent.

Definition with_baseUrl {N : NodeHttp} (baseUrl : string)
    : WebClientOptions.t (@transport N) :=
  WebClientOptions.mk (Value baseUrl) Absent Absent.

(** An environment that answers 200 OK with the body "hello", and one whose
    connections are refused. *)
Definition node_ok : NodeHttp := scripted reply_ok.
Definition node_refused : NodeHttp := scripted reply_refused.

(** The clients [new WebClient({ baseUrl })] and [new WebClient({})]. *)
Definition client_of (N : NodeHttp) (baseUrl : string)
    : WebClient.t (@transport N) :=
  WebClient.mk (with_baseUrl baseUrl) (@asyncRequest N).

Definition bare_client (N : NodeHttp) : WebClient.t (@transport N) :=
  WebClient.mk no_options (@asyncRequest N).

(** [new WebClient({ baseUrl, defaultMethod: PUT, limiter })] with the
    logging limiter. *)
Definition limited_options (baseUrl : string)
    : WebClientOptions.t (@transport node_ok) :=
  WebClientOptions.mk (Value baseUrl) (Value Http.put)
    (Value (logging_limiter reply_ok)).

Definition limited_client (baseUrl : string)
    : WebClient.t (@transport node_ok) :=
  WebClient.mk (limited_options baseUrl)
    (logging_limiter reply_ok (@asyncRequest node_ok)).

Definition hello_response (requestOptions : RequestOptions.t) : Response.t :=
  Response.mk [] "hello" 200 "OK" [] requestOptions.

(** A limiter whose function hands the opposite secure flag to the function
    it wraps, and the client [new WebClient({ baseUrl, limiter })] with it. *)
Definition flipping_limiter (fn : @transport node_ok) : @transport node_ok :=
  fun url options body secure => fn url options body (negb secure).

Definition flipping_options (baseUrl : string)
    : WebClientOptions.t (@transport node_ok) :=
  WebClientOptions.mk (Value baseUrl) Absent (Value flipping_limiter).

Definition flipping_client (baseUrl : string)
    : WebClient.t (@transport node_ok) :=
  WebClient.mk (flipping_options baseUrl)
    (flipping_limiter (@asyncRequest node_ok)).

(** * Properties *)

(** ** The regular expressions of the client *)

Lemma greedy_trailing (b : bool) (s : string) :
  RegExp.greedy "/" (RegExp.match_here [RegExp.Eol]) b s =
  match strip_trailing_slashes s with
  | EmptyString => Some ""
  | String _ _ => None
  end.
Proof.
  revert b; induction s as [|a s IH]; intros b; simpl.
  - reflexivity.
  - rewrite IH.
    destruct (Ascii.eqb a "/"), (strip_trailing_slashes s); reflexivity.
Qed.

Lemma strip_trailing_cons (a : ascii) (s : string) :
  strip_trailing_slashes (String a s) <> "" ->
  strip_trailing_slashes (String a s) = String a (strip_trailing_slashes s).
Proof.
  simpl.
  destruct (strip_trailing_slashes s); [|reflexivity].
  destruct (Ascii.eqb a "/"); [congruence|reflexivity].
Qed.

Lemma search_trailing (b : bool) (s : string) :
  RegExp.search re_trailing_slashes b s = Some (strip_trailing_slashes s, "").
Proof.
  revert b; induction s as [|a s IH]; intros b.
  - reflexivity.
  - change (RegExp.search re_trailing_slashes b (String a s))
      with (match RegExp.greedy "/" (RegExp.match_here [RegExp.Eol]) b
                    (String a s) with
            | Some rest => Some ("", rest)
            | None =>
                match RegExp.search re_trailing_slashes false s with
                | Some (before, rest) => Some (String a before, rest)
                | None => None
                end
            end).
    rewrite greedy_trailing, IH.
    destruct (strip_trailing_slashes (String a s)) eqn:E.
    + reflexivity.
    + rewrite <- E, strip_trailing_cons; [reflexivity|].
      rewrite E; discriminate.
Qed.

Lemma replace_trailing (s : string) :
  RegExp.replace re_trailing_slashes "/" s = strip_trailing_slashes s ++ "/".
Proof.
  unfold RegExp.replace. rewrite search_trailing. reflexivity.
Qed.

Lemma greedy_leading (b : bool) (s : string) :
  RegExp.greedy "/" (RegExp.match_here []) b s =
  Some (strip_leading_slashes s).
Proof.
  revert b; induction s as [|a s IH]; intros b; simpl.
  - reflexivity.
  - destruct (Ascii.eqb a "/"); [rewrite IH|]; reflexivity.
Qed.

Lemma search_after_start (r : RegExp.t) (s : string) :
  RegExp.search (RegExp.Bol :: r) false s = None.
Proof.
  induction s as [|a s IH]; simpl; [|rewrite IH]; reflexivity.
Qed.

(** A pattern anchored by [^] matches at index 0 or nowhere. *)
Lemma search_anchored (r : RegExp.t) (s : string) :
  RegExp.search (RegExp.Bol :: r) true s =
  match RegExp.match_here r true s with
  | Some rest => Some ("", rest)
  | None => None
  end.
Proof.
  destruct s as [|a s]; simpl.
  - destruct (RegExp.match_here r true ""); reflexivity.
  - destruct (RegExp.match_here r true (String a s)); [reflexivity|].
    rewrite search_after_start; reflexivity.
Qed.

Lemma replace_leading (s : string) :
  RegExp.replace re_leading_slashes "" s = strip_leading_slashes s.
Proof.
  unfold RegExp.replace, re_leading_slashes. rewrite search_anchored.
  destruct s as [|a s]; simpl; [reflexivity|].
  destruct (Ascii.eqb a "/"); [|reflexivity].
  rewrite greedy_leading. reflexivity.
Qed.

Lemma prefix_cons (a b : ascii) (p s : string) :
  String.prefix (String a p) (String b s) = Ascii.eqb b a && String.prefix p s.
Proof.
  simpl. destruct (ascii_dec a b) as [->|N].
  - rewrite Ascii.eqb_refl. reflexivity.
  - rewrite Ascii.eqb_sym. apply Ascii.eqb_neq in N. rewrite N. reflexivity.
Qed.

Lemma prefix_nil (a : ascii) (p : string) :
  String.prefix (String a p) "" = false.
Proof. reflexivity. Qed.

Ltac case_chars :=
  repeat match goal with
         | |- context [Ascii.eqb ?a ?c] => destruct (Ascii.eqb a c)
         end.

(** [/^https?:/] tests for one of the two prefixes. *)
Lemma hasProtocol_startsWith (url : string) :
  hasProtocol url = startsWith url "http:" || startsWith url "https:".
Proof.
  unfold hasProtocol, RegExp.test, re_protocol, startsWith.
  rewrite search_anchored.
  destruct url as [|a1 [|a2 [|a3 [|a4 [|a5 [|a6 url]]]]]];
    rewrite ?prefix_cons, ?prefix_nil; cbn [RegExp.match_here String.prefix];
    case_chars; try reflexivity; destruct url; reflexivity.
Qed.

Lemma prefix_split (p s : string) :
  String.prefix p s = true -> exists r, s = p ++ r.
Proof.
  revert s; induction p as [|a p IH]; intros s Hp.
  - exists s; reflexivity.
  - destruct s as [|b s]; [discriminate|].
    rewrite prefix_cons in Hp. apply andb_true_iff in Hp as [Hab Hp].
    apply Ascii.eqb_eq in Hab; subst b.
    destruct (IH s Hp) as [r ->]. exists r; reflexivity.
Qed.

(** ** Stripping slashes *)

Lemma append_assoc (s t u : string) : (s ++ t) ++ u = s ++ t ++ u.
Proof.
  induction s as [|a s IH]; simpl; [|rewrite IH]; reflexivity.
Qed.

Lemma strip_trailing_through (p : string) (c : ascii) (r : string) :
  Ascii.eqb c "/" = false ->
  strip_trailing_slashes (p ++ String c r) =
  p ++ String c (strip_trailing_slashes r).
Proof.
  intros Hc; induction p as [|a p IH].
  - simpl. rewrite Hc. destruct (strip_trailing_slashes r); reflexivity.
  - change (strip_trailing_slashes (String a p ++ String c r))
      with (match strip_trailing_slashes (p ++ String c r) with
            | EmptyString =>
                if Ascii.eqb a "/" then EmptyString else String a EmptyString
            | String b t => String a (String b t)
            end).
    rewrite IH. destruct p; reflexivity.
Qed.

Lemma strip_trailing_slashes_only (n : nat) :
  strip_trailing_slashes (slashes n) = "".
Proof.
  induction n as [|n IH]; simpl; [|rewrite IH]; reflexivity.
Qed.

Lemma strip_trailing_app_slashes (s : string) (n : nat) :
  strip_trailing_slashes (s ++ slashes n) = strip_trailing_slashes s.
Proof.
  induction s as [|a s IH]; simpl.
  - apply strip_trailing_slashes_only.
  - rewrite IH; reflexivity.
Qed.

Lemma strip_leading_slashes_app (n : nat) (s : string) :
  strip_leading_slashes (slashes n ++ s) = strip_leading_slashes s.
Proof.
  induction n as [|n IH]; simpl; [reflexivity|exact IH].
Qed.

(** What [strip_trailing_slashes] and [strip_leading_slashes] return: the
    argument without a run of slashes at its end (at its start), and no
    slash is left there. *)
Lemma strip_trailing_slashes_spec (s : string) :
  exists n, s = strip_trailing_slashes s ++ slashes n /\
            forall t, strip_trailing_slashes s <> t ++ "/".
Proof.
  induction s as [|a s (n & Hs & Hlast)].
  - exists 0; split; [reflexivity|]. intros [|? ?]; discriminate.
  - simpl. destruct (strip_trailing_slashes s) as [|b u] eqn:E.
    + destruct (Ascii.eqb_spec a "/") as [->|Ha].
      * exists (S n); split; [simpl; rewrite Hs at 1; reflexivity|].
        intros [|? ?]; discriminate.
      * exists n; split; [simpl; rewrite Hs at 1; reflexivity|].
        intros [|? [|? ?]]; simpl; congruence.
    + exists n; split; [simpl; rewrite Hs at 1; reflexivity|].
      intros [|c t]; simpl; [discriminate|].
      intros Heq; injection Heq as _ Heq. exact (Hlast t Heq).
Qed.

Lemma strip_leading_slashes_spec (s : string) :
  exists n, s = slashes n ++ strip_leading_slashes s /\
            forall t, strip_leading_slashes s <> String "/" t.
Proof.
  induction s as [|a s (n & Hs & Hfirst)].
  - exists 0; split; [reflexivity|discriminate].
  - simpl. destruct (Ascii.eqb_spec a "/") as [->|Ha].
    + exists (S n); split; [simpl; rewrite Hs at 1; reflexivity|exact Hfirst].
    + exists 0; split; [reflexivity|congruence].
Qed.

(** ** The client *)

Section Properties.

Context `{NodeHttp}.

Local Open Scope async_scope.

Lemma fill_absolute (options : RequestOptions.t)
    (clientOptions : WebClientOptions.t transport) :
  hasProtocol (RequestOptions.url options) = true ->
  fillRequestOptionDefaults options clientOptions =
  Normal (newOptions options clientOptions).
Proof.
  intros Hp. unfold fillRequestOptionDefaults. rewrite Hp. reflexivity.
Qed.

Lemma fill_relative (options : RequestOptions.t)
    (clientOptions : WebClientOptions.t transport) (baseUrl : string) :
  hasProtocol (RequestOptions.url options) = false ->
  read (WebClientOptions.baseUrl clientOptions) = Some baseUrl ->
  fillRequestOptionDefaults options clientOptions =
  Normal (RequestOptions.mk
            (RequestOptions.method (newOptions options clientOptions))
            (resolved_url_spec baseUrl (RequestOptions.url options))).
Proof.
  intros Hp Hb. unfold fillRequestOptionDefaults, resolved_url_spec.
  rewrite Hp, Hb, replace_trailing, replace_leading. cbn [negb].
  rewrite append_assoc. reflexivity.
Qed.

Lemma fill_no_baseUrl (options : RequestOptions.t)
    (clientOptions : WebClientOptions.t transport) :
  hasProtocol (RequestOptions.url options) = false ->
  read (WebClientOptions.baseUrl clientOptions) = None ->
  fillRequestOptionDefaults options clientOptions =
  Throw (TypeError "`url` doesn't include a protocol and `baseUrl` isn't set").
Proof.
  intros Hp Hb. unfold fillRequestOptionDefaults. rewrite Hp, Hb. reflexivity.
Qed.

Lemma fill_method (options filled : RequestOptions.t)
    (clientOptions : WebClientOptions.t transport) :
  fillRequestOptionDefaults options clientOptions = Normal filled ->
  RequestOptions.method filled =
  RequestOptions.method (newOptions options clientOptions).
Proof.
  unfold fillRequestOptionDefaults.
  destruct (hasProtocol (RequestOptions.url options)); cbn [negb].
  - intros [= <-]; reflexivity.
  - destruct (read (WebClientOptions.baseUrl clientOptions)); [|discriminate].
    intros [= <-]; reflexivity.
Qed.

Lemma constructor_Normal (options : WebClientOptions.t transport)
    (this : WebClient.t transport) :
  constructor options = Normal this ->
  WebClient.options this = options /\
  WebClient.requestFn this =
    match read (WebClientOptions.limiter options) with
    | Some limiter => limiter asyncRequest
    | None => asyncRequest
    end /\
  forall baseUrl, read (WebClientOptions.baseUrl options) = Some baseUrl ->
                  hasProtocol baseUrl = true.
Proof.
  unfold constructor.
  destruct (read (WebClientOptions.baseUrl options)) as [b|].
  - destruct (hasProtocol b) eqn:Hb; cbn [negb]; [|discriminate].
    intros [= <-]. repeat split. intros ? [= <-]. exact Hb.
  - intros [= <-]. repeat split. discriminate.
Qed.

(** A base URL with a protocol keeps it through the resolution. *)
Lemma hasProtocol_resolved (baseUrl url : string) :
  hasProtocol baseUrl = true ->
  hasProtocol (resolved_url_spec baseUrl url) = true.
Proof.
  rewrite hasProtocol_startsWith. unfold startsWith, resolved_url_spec.
  intros Hb. apply orb_true_iff in Hb as [Hb|Hb];
    apply prefix_split in Hb as [r ->].
  - change ("http:" ++ r) with ("http" ++ String ":" r).
    rewrite strip_trailing_through by reflexivity. reflexivity.
  - change ("https:" ++ r) with ("https" ++ String ":" r).
    rewrite strip_trailing_through by reflexivity. reflexivity.
Qed.

Lemma fill_hasProtocol (clientOptions : WebClientOptions.t transport)
    (this : WebClient.t transport) (options filled : RequestOptions.t) :
  constructor clientOptions = Normal this ->
  fillRequestOptionDefaults options (WebClient.options this) = Normal filled ->
  hasProtocol (RequestOptions.url filled) = true.
Proof.
  intros Hc Hf. apply constructor_Normal in Hc as (Ho & _ & Hb).
  rewrite Ho in Hf.
  destruct (hasProtocol (RequestOptions.url options)) eqn:Hp.
  - rewrite (fill_absolute _ _ Hp) in Hf. injection Hf as <-. exact Hp.
  - destruct (read (WebClientOptions.baseUrl clientOptions)) as [b|] eqn:Eb.
    + rewrite (fill_relative _ _ _ Hp Eb) in Hf. injection Hf as <-.
      apply hasProtocol_resolved, Hb. reflexivity.
    + rewrite (fill_no_baseUrl _ _ Hp Eb) in Hf. discriminate.
Qed.

(** [request], one case of the body after the other. *)
Lemma request_unfold (this : WebClient.t transport)
    (options : RequestOptions.t) (w : World) :
  request this options w =
  match fillRequestOptionDefaults options (WebClient.options this) with
  | Throw e => (Normal (Rejected e), w)
  | Normal filled =>
      match WebClient.requestFn this
              (RequestOptions.url filled)
              (InternalRequestOptions.mk (read (RequestOptions.method filled)))
              None
              (hasSecureProtocol (RequestOptions.url filled)) w with
      | (Normal (Fulfilled internalResponse), w') =>
          (Normal (Fulfilled (Response.assemble internalResponse filled)), w')
      | (Normal (Rejected e), w') => (Normal (Rejected e), w')
      | (Normal Pending, w') => (Normal Pending, w')
      | (Throw e, w') => (Normal (Rejected e), w')
      end
  end.
Proof.
  unfold request, async, bind, try, await, ret.
  destruct (fillRequestOptionDefaults options (WebClient.options this))
    as [filled|e]; [|reflexivity].
  destruct (WebClient.requestFn this _ _ _ _ w) as [[[ir|e|]|e] w'];
    reflexivity.
Qed.

(** Once the promise is settled, no event changes it. *)
Lemma deliver_settled (body : option Body) (st : listeners)
    (ev : event Thrown) :
  settled st <> Pending -> settled (deliver body st ev) = settled st.
Proof.
  intros Hs. unfold deliver, resolve, reject.
  destruct ev, body, (on_response st) as [[? ?]|], (settled st);
    try reflexivity; congruence.
Qed.

Lemma fold_deliver_settled (body : option Body) (events : list (event Thrown))
    (st : listeners) :
  settled st <> Pending ->
  settled (fold_left (deliver body) events st) = settled st.
Proof.
  revert st; induction events as [|ev events IH]; intros st Hs; simpl.
  - reflexivity.
  - rewrite IH.
    + apply deliver_settled, Hs.
    + rewrite deliver_settled; assumption.
Qed.

(** The object spread of [extend] is the shallow merge of the
    specification. *)
Lemma spread_shallow_merge (F : Type) (current : WebClientOptions.t F)
    (overrides : option (WebClientOptions.t F)) :
  WebClientOptions.spread current overrides = shallow_merge current overrides.
Proof.
  destruct overrides as [[b d l]|]; [|reflexivity].
  unfold WebClientOptions.spread, shallow_merge, spread, has_key.
  cbn [WebClientOptions.baseUrl WebClientOptions.defaultMethod
       WebClientOptions.limiter].
  destruct b, d, l; reflexivity.
Qed.

Lemma delivered_app (body : option Body) (before : list (event Thrown))
    (ev : event Thrown) (after : list (event Thrown)) :
  delivered body (before ++ ev :: after)%list =
  fold_left (deliver body) after (deliver body (delivered body before) ev).
Proof.
  unfold delivered. rewrite fold_left_app. reflexivity.
Qed.

End Properties.

(** ** The statements of the specification *)

Section Claims.

Context `{NodeHttp}.

Local Open Scope async_scope.

(** C1. On a client with a [baseUrl], a request URL that does not match
    [^https?:] is resolved to [baseUrl] with all trailing slashes stripped,
    one slash, and the request URL with all leading slashes stripped. For
    ["https://api.example.com"] followed by any number of slashes and
    ["v1/items"] preceded by any number of slashes, the resolved URL is
    ["https://api.example.com/v1/items"]. *)
Theorem C1_resolved_url :
  forall (clientOptions : WebClientOptions.t transport)
         (this : WebClient.t transport) (baseUrl : string)
         (options : RequestOptions.t),
    constructor clientOptions = Normal this ->
    WebClientOptions.baseUrl (WebClient.options this) = Value baseUrl ->
    (hasProtocol (RequestOptions.url options) = false ->
     exists filled,
       fillRequestOptionDefaults options (WebClient.options this) =
         Normal filled /\
       RequestOptions.url filled =
         strip_trailing_slashes baseUrl ++ "/" ++
         strip_leading_slashes (RequestOptions.url options)) /\
    (forall n m,
       baseUrl = "https://api.example.com" ++ slashes n ->
       RequestOptions.url options = slashes m ++ "v1/items" ->
       exists filled,
         fillRequestOptionDefaults options (WebClient.options this) =
           Normal filled /\
         RequestOptions.url filled = "https://api.example.com/v1/items").
Proof.
  intros clientOptions this baseUrl options _ Hb.
  assert (Hr : read (WebClientOptions.baseUrl (WebClient.options this)) =
               Some baseUrl) by (rewrite Hb; reflexivity).
  split.
  - intros Hp. eexists; split; [exact (fill_relative _ _ _ Hp Hr)|].
    reflexivity.
  - intros n m -> Hu.
    assert (Hp : hasProtocol (RequestOptions.url options) = false).
    { rewrite Hu, hasProtocol_startsWith. destruct m; reflexivity. }
    eexists; split; [exact (fill_relative _ _ _ Hp Hr)|].
    cbn [RequestOptions.url]. unfold resolved_url_spec.
    rewrite Hu, strip_trailing_app_slashes, strip_leading_slashes_app.
    reflexivity.
Qed.

(** C2. A request that succeeds has called the transport function of the
    client once, with the resolved absolute URL, options holding the filled
    method, no body and the secure flag of that URL; the response holds the
    headers, body text, status code, status message and trailers of the
    transport result, and the filled options as [requestOptions]. *)
Theorem C2_request_success :
  forall (clientOptions : WebClientOptions.t transport)
         (this : WebClient.t transport) (options : RequestOptions.t)
         (w w' : World) (response : Response.t),
    constructor clientOptions = Normal this ->
    request this options w = (Normal (Fulfilled response), w') ->
    exists filled internalResponse,
      fillRequestOptionDefaults options (WebClient.options this) =
        Normal filled /\
      hasProtocol (RequestOptions.url filled) = true /\
      WebClient.requestFn this
        (RequestOptions.url filled)
        (InternalRequestOptions.mk (read (RequestOptions.method filled)))
        None
        (hasSecureProtocol (RequestOptions.url filled)) w =
        (Normal (Fulfilled internalResponse), w') /\
      Response.headers response = InternalResponse.headers internalResponse /\
      Response.rawData response = InternalResponse.rawData internalResponse /\
      Response.statusCode response =
        InternalResponse.statusCode internalResponse /\
      Response.statusMessage response =
        InternalResponse.statusMessage internalResponse /\
      Response.trailers response =
        InternalResponse.trailers internalResponse /\
      Response.requestOptions response = filled.
Proof.
  intros clientOptions this options w w' response Hc Hr.
  rewrite request_unfold in Hr.
  destruct (fillRequestOptionDefaults options (WebClient.options this))
    as [filled|e] eqn:Hf; [|discriminate].
  destruct (WebClient.requestFn this _ _ _ _ w) as [[[ir|e|]|e] w''] eqn:Ht;
    try discriminate.
  injection Hr as <- <-.
  exists filled, ir. split; [reflexivity|].
  split; [exact (fill_hasProtocol _ _ _ _ Hc Hf)|].
  split; [exact Ht|].
  repeat split; reflexivity.
Qed.

(** C3 (as amended). A request whose URL has no protocol, on a client
    without [baseUrl], fails with the [TypeError] of
    [fillRequestOptionDefaults]; [request] being an [async] function, the
    call returns normally and the error is the rejection of the returned
    promise; the transport function is not called. *)
Theorem C3_missing_baseUrl_rejects :
  forall (this : WebClient.t transport) (options : RequestOptions.t)
         (w : World),
    hasProtocol (RequestOptions.url options) = false ->
    read (WebClientOptions.baseUrl (WebClient.options this)) = None ->
    fillRequestOptionDefaults options (WebClient.options this) =
      Throw (TypeError
               "`url` doesn't include a protocol and `baseUrl` isn't set") /\
    request this options w =
      (Normal
         (Rejected
            (TypeError
               "`url` doesn't include a protocol and `baseUrl` isn't set")),
       w).
Proof.
  intros this options w Hp Hb.
  pose proof (fill_no_baseUrl _ _ Hp Hb) as Hf.
  split; [exact Hf|].
  rewrite request_unfold, Hf. reflexivity.
Qed.

(** C4. Constructing a client from options whose [baseUrl] has a value that
    starts neither with [http:] nor with [https:] throws the [TypeError]
    "`baseUrl` doesn't include a protocol". Filling the options of a request
    does not look at the protocol of [baseUrl]: with any [baseUrl] value it
    does not throw. *)
Theorem C4_baseUrl_checked_by_constructor :
  (forall (options : WebClientOptions.t transport) (baseUrl : string),
     read (WebClientOptions.baseUrl options) = Some baseUrl ->
     startsWith baseUrl "http:" = false ->
     startsWith baseUrl "https:" = false ->
     constructor options =
       Throw (TypeError "`baseUrl` doesn't include a protocol")) /\
  (forall (this : WebClient.t transport) (options : RequestOptions.t)
          (baseUrl : string),
     read (WebClientOptions.baseUrl (WebClient.options this)) = Some baseUrl ->
     exists filled,
       fillRequestOptionDefaults options (WebClient.options this) =
         Normal filled).
Proof.
  split.
  - intros options baseUrl Hb H1 H2. unfold constructor.
    rewrite Hb, hasProtocol_startsWith, H1, H2. reflexivity.
  - intros this options baseUrl Hb.
    destruct (hasProtocol (RequestOptions.url options)) eqn:Hp.
    + eexists. exact (fill_absolute _ _ Hp).
    + eexists. exact (fill_relative _ _ _ Hp Hb).
Qed.

(** C5. The filled options take the [method] of the request options when
    these have the key, else the [defaultMethod] of the client when it has a
    value, else GET; their [url] is that of the request options until the
    URL is resolved, and the resolution keeps the [method]. *)
Theorem C5_default_filling :
  forall (options : RequestOptions.t)
         (clientOptions : WebClientOptions.t transport),
    (forall m, RequestOptions.method options = Value m ->
       RequestOptions.method (newOptions options clientOptions) = Value m) /\
    (RequestOptions.method options <> Absent ->
       RequestOptions.method (newOptions options clientOptions) =
       RequestOptions.method options) /\
    (forall d, RequestOptions.method options = Absent ->
       read (WebClientOptions.defaultMethod clientOptions) = Some d ->
       RequestOptions.method (newOptions options clientOptions) = Value d) /\
    (RequestOptions.method options = Absent ->
       read (WebClientOptions.defaultMethod clientOptions) = None ->
       RequestOptions.method (newOptions options clientOptions) =
       Value Http.get) /\
    RequestOptions.url (newOptions options clientOptions) =
      RequestOptions.url options /\
    (forall filled,
       fillRequestOptionDefaults options clientOptions = Normal filled ->
       RequestOptions.method filled =
       RequestOptions.method (newOptions options clientOptions)).
Proof.
  intros options clientOptions. unfold newOptions; cbn [RequestOptions.method
    RequestOptions.url].
  repeat split.
  - intros m ->. reflexivity.
  - destruct (RequestOptions.method options); [congruence|reflexivity..].
  - intros d -> ->. reflexivity.
  - intros -> ->. reflexivity.
  - intros filled Hf. apply (fill_method _ _ _ Hf).
Qed.

(** C6 (as amended). The secure flag the client hands to its transport
    function is whether the resolved URL starts with [https:], whatever the
    client options; [asyncRequest], the transport function of a client
    without limiter, then goes through [requestHttps] for such a URL and
    through [requestHttp] for any other. With a limiter, the route is what
    the function returned by the limiter makes of the flag. *)
Theorem C6_secure_by_resolved_url :
  forall (clientOptions : WebClientOptions.t transport)
         (this : WebClient.t transport) (options filled : RequestOptions.t)
         (w : World),
    constructor clientOptions = Normal this ->
    fillRequestOptionDefaults options (WebClient.options this) =
      Normal filled ->
    let url := RequestOptions.url filled in
    let internalOptions :=
      InternalRequestOptions.mk (read (RequestOptions.method filled)) in
    request this options w =
      async (
        internalResponse <-
          await (WebClient.requestFn this url internalOptions None
                   (startsWith url "https:")) ;;
        ret (Response.assemble internalResponse filled)) w /\
    (read (WebClientOptions.limiter clientOptions) = None ->
     (startsWith url "https:" = true ->
      request this options w =
        async (
          internalResponse <-
            (fun w => new_Promise None (requestHttps url internalOptions None w)) ;;
          ret (Response.assemble internalResponse filled)) w) /\
     (startsWith url "https:" = false ->
      request this options w =
        async (
          internalResponse <-
            (fun w => new_Promise None (requestHttp url internalOptions None w)) ;;
          ret (Response.assemble internalResponse filled)) w)).
Proof.
  intros clientOptions this options filled w Hc Hf url internalOptions.
  assert (Hreq : request this options w =
      async (
        internalResponse <-
          await (WebClient.requestFn this url internalOptions None
                   (startsWith url "https:")) ;;
        ret (Response.assemble internalResponse filled)) w).
  { rewrite request_unfold, Hf. unfold async, bind, await, ret.
    fold url. fold internalOptions.
    change (hasSecureProtocol url) with (startsWith url "https:").
    destruct (WebClient.requestFn this url internalOptions None
                (startsWith url "https:") w) as [[[ir|e|]|e] w'];
      reflexivity. }
  split; [exact Hreq|].
  intros Hl. apply constructor_Normal in Hc as (_ & Hfn & _).
  rewrite Hl in Hfn. rewrite Hreq, Hfn.
  unfold asyncRequest, async, bind, await, ret.
  split; intros ->.
  - destruct (new_Promise None (requestHttps url internalOptions None w))
      as [[ir|e|] w']; reflexivity.
  - destruct (new_Promise None (requestHttp url internalOptions None w))
      as [[ir|e|] w']; reflexivity.
Qed.

(** C7. [extend] is the construction of a client from the shallow merge of
    the options of [this] with the overrides: the validation of [baseUrl]
    runs on the merged options, the new transport function is the merged
    limiter applied to [asyncRequest] (or [asyncRequest] itself), and
    [this] is a value that [extend] only reads. Extending a constructed
    client with [{ defaultMethod: POST }] gives a client whose requests
    default to POST, next to the unchanged default of [this]. *)
Theorem C7_extend_constructs_from_merge :
  forall (clientOptions : WebClientOptions.t transport)
         (this : WebClient.t transport)
         (overrides : option (WebClientOptions.t transport)),
    constructor clientOptions = Normal this ->
    let merged := shallow_merge (WebClient.options this) overrides in
    extend this overrides = constructor merged /\
    (forall baseUrl,
       read (WebClientOptions.baseUrl merged) = Some baseUrl ->
       hasProtocol baseUrl = false ->
       extend this overrides =
         Throw (TypeError "`baseUrl` doesn't include a protocol")) /\
    (forall child,
       extend this overrides = Normal child ->
       WebClient.options child = merged /\
       WebClient.requestFn child =
         match read (WebClientOptions.limiter merged) with
         | Some limiter => limiter asyncRequest
         | None => asyncRequest
         end) /\
    (exists child,
       extend this (Some (WebClientOptions.mk Absent (Value Http.post) Absent))
         = Normal child /\
       WebClientOptions.defaultMethod (WebClient.options child) =
         Value Http.post /\
       WebClientOptions.baseUrl (WebClient.options child) =
         WebClientOptions.baseUrl (WebClient.options this) /\
       WebClientOptions.limiter (WebClient.options child) =
         WebClientOptions.limiter (WebClient.options this) /\
       forall url,
         RequestOptions.method
           (newOptions (RequestOptions.mk Absent url)
              (WebClient.options child)) = Value Http.post /\
         RequestOptions.method
           (newOptions (RequestOptions.mk Absent url)
              (WebClient.options this)) =
         Value (nullish
                  (read (WebClientOptions.defaultMethod clientOptions))
                  Http.get)).
Proof.
  intros clientOptions this overrides Hc merged.
  assert (He : extend this overrides = constructor merged).
  { unfold extend. rewrite spread_shallow_merge. reflexivity. }
  split; [exact He|]. split; [|split].
  - intros baseUrl Hb Hp. rewrite He. unfold constructor.
    rewrite Hb, Hp. reflexivity.
  - intros child Hchild. rewrite He in Hchild.
    apply constructor_Normal in Hchild as (Ho & Hfn & _).
    split; assumption.
  - apply constructor_Normal in Hc as (Ho & Hfn & Hb).
    unfold extend, constructor.
    cbn [WebClientOptions.spread WebClientOptions.baseUrl spread
         WebClientOptions.defaultMethod WebClientOptions.limiter].
    rewrite Ho.
    destruct (read (WebClientOptions.baseUrl clientOptions)) as [b|] eqn:Eb.
    + rewrite (Hb b eq_refl). cbn [negb].
      eexists; split; [reflexivity|].
      cbn [WebClient.options WebClientOptions.defaultMethod
           WebClientOptions.baseUrl WebClientOptions.limiter].
      repeat split; reflexivity.
    + eexists; split; [reflexivity|].
      cbn [WebClient.options WebClientOptions.defaultMethod
           WebClientOptions.baseUrl WebClientOptions.limiter].
      repeat split; reflexivity.
Qed.

(** C8. On a client made by the constructor, the [requestOptions.url] of
    every response matches [^https?:]: it is the URL of the request when
    that has a protocol, and otherwise the resolution of that URL against
    the [baseUrl] of the client, which has a protocol. *)
Theorem C8_response_url_absolute :
  forall (clientOptions : WebClientOptions.t transport)
         (this : WebClient.t transport) (options : RequestOptions.t)
         (w w' : World) (response : Response.t),
    constructor clientOptions = Normal this ->
    request this options w = (Normal (Fulfilled response), w') ->
    hasProtocol (RequestOptions.url (Response.requestOptions response)) =
      true /\
    (hasProtocol (RequestOptions.url options) = true ->
     RequestOptions.url (Response.requestOptions response) =
     RequestOptions.url options) /\
    (hasProtocol (RequestOptions.url options) = false ->
     exists baseUrl,
       read (WebClientOptions.baseUrl clientOptions) = Some baseUrl /\
       hasProtocol baseUrl = true /\
       RequestOptions.url (Response.requestOptions response) =
       resolved_url_spec baseUrl (RequestOptions.url options)).
Proof.
  intros clientOptions this options w w' response Hc Hr.
  rewrite request_unfold in Hr.
  destruct (fillRequestOptionDefaults options (WebClient.options this))
    as [filled|e] eqn:Hf; [|discriminate].
  destruct (WebClient.requestFn this _ _ _ _ w) as [[[ir|e|]|e] w''];
    try discriminate.
  injection Hr as <- <-. cbn [Response.assemble Response.requestOptions].
  split; [exact (fill_hasProtocol _ _ _ _ Hc Hf)|].
  apply constructor_Normal in Hc as (Ho & _ & Hb). rewrite Ho in Hf.
  split; intros Hp.
  - rewrite (fill_absolute _ _ Hp) in Hf. injection Hf as <-. reflexivity.
  - destruct (read (WebClientOptions.baseUrl clientOptions)) as [b|] eqn:Eb.
    + rewrite (fill_relative _ _ _ Hp Eb) in Hf. injection Hf as <-.
      exists b. repeat split. apply Hb; reflexivity.
    + rewrite (fill_no_baseUrl _ _ Hp Eb) in Hf. discriminate.
Qed.

(** C9. When the transport function of the client returns a promise that is
    rejected with [E], the promise of [request] is rejected with [E] and the
    world is the one left by that single call: nothing is called again and
    there is no response. In [asyncRequest], the first ['error'] of the
    request or of the response that finds the promise pending rejects it with
    its own error, and later events do not change that. *)
Theorem C9_transport_error_propagates :
  (forall (this : WebClient.t transport) (options filled : RequestOptions.t)
          (w w' : World) (E : err),
     fillRequestOptionDefaults options (WebClient.options this) =
       Normal filled ->
     WebClient.requestFn this
       (RequestOptions.url filled)
       (InternalRequestOptions.mk (read (RequestOptions.method filled)))
       None
       (hasSecureProtocol (RequestOptions.url filled)) w =
       (Normal (Rejected E), w') ->
     request this options w = (Normal (Rejected E), w')) /\
  (forall (url : string) (options : InternalRequestOptions.t)
          (body : option Body) (secure : bool) (w w' : World)
          (before after : list (event Thrown)) (E : err),
     (if secure then requestHttps else requestHttp) url options body w =
       (Normal (before ++ RequestError E :: after)%list, w') ->
     settled (delivered body before) = Pending ->
     asyncRequest url options body secure w = (Normal (Rejected E), w')) /\
  (forall (url : string) (options : InternalRequestOptions.t)
          (body : option Body) (secure : bool) (w w' : World)
          (before after : list (event Thrown)) (E : err),
     (if secure then requestHttps else requestHttp) url options body w =
       (Normal (before ++ ResponseError E :: after)%list, w') ->
     settled (delivered body before) = Pending ->
     on_response (delivered body before) <> None ->
     asyncRequest url options body secure w = (Normal (Rejected E), w')).
Proof.
  split; [|split].
  - intros this options filled w w' E Hf Ht.
    rewrite request_unfold, Hf, Ht. reflexivity.
  - intros url options body secure w w' before after E Hp Hs.
    unfold asyncRequest, async. rewrite Hp. unfold new_Promise.
    rewrite delivered_app, fold_deliver_settled;
      cbn [deliver settled]; rewrite Hs; [reflexivity|discriminate].
  - intros url options body secure w w' before after E Hp Hs Hr.
    unfold asyncRequest, async. rewrite Hp. unfold new_Promise.
    rewrite delivered_app.
    destruct (on_response (delivered body before)) as [[r t]|] eqn:Er;
      [|congruence].
    rewrite fold_deliver_settled; cbn [deliver]; rewrite Er;
      cbn [settled]; rewrite Hs; [reflexivity|discriminate].
Qed.

(** C10. Request options that hold the key [method] with the value
    [undefined] are filled with that [undefined], not with the default of
    the client nor with GET, and the [requestOptions.method] of the response
    is [undefined]. *)
Theorem C10_explicit_undefined_method :
  forall (this : WebClient.t transport) (options : RequestOptions.t),
    RequestOptions.method options = Undefined ->
    RequestOptions.method (newOptions options (WebClient.options this)) =
      Undefined /\
    (forall filled,
       fillRequestOptionDefaults options (WebClient.options this) =
         Normal filled ->
       RequestOptions.method filled = Undefined) /\
    (forall (w w' : World) (response : Response.t),
       request this options w = (Normal (Fulfilled response), w') ->
       RequestOptions.method (Response.requestOptions response) = Undefined).
Proof.
  intros this options Hm.
  assert (Hn : RequestOptions.method
                 (newOptions options (WebClient.options this)) = Undefined).
  { unfold newOptions; cbn [RequestOptions.method]. rewrite Hm. reflexivity. }
  split; [exact Hn|]. split.
  - intros filled Hf. rewrite (fill_method _ _ _ Hf). exact Hn.
  - intros w w' response Hr. rewrite request_unfold in Hr.
    destruct (fillRequestOptionDefaults options (WebClient.options this))
      as [filled|e] eqn:Hf; [|discriminate].
    destruct (WebClient.requestFn this _ _ _ _ w) as [[[ir|e|]|e] w''];
      try discriminate.
    injection Hr as <- <-. cbn [Response.assemble Response.requestOptions].
    rewrite (fill_method _ _ _ Hf). exact Hn.
Qed.

End Claims.

(** ** Concrete runs *)

Example request_hello :
  @request node_ok (client_of node_ok "https://api.example.com/")
    (RequestOptions.mk Absent "/x") [] =
  (Normal
     (Fulfilled
        (hello_response
           (RequestOptions.mk (Value Http.get) "https://api.example.com/x"))),
   [ViaHttps "https://api.example.com/x"
      (InternalRequestOptions.mk (Some Http.get)) None]).
Proof. reflexivity. Qed.

Example request_limited :
  @request node_ok (limited_client "http://api.example.com")
    (RequestOptions.mk Absent "x") [] =
  (Normal
     (Fulfilled
        (hello_response
           (RequestOptions.mk (Value Http.put) "http://api.example.com/x"))),
   [Limited "http://api.example.com/x";
    ViaHttp "http://api.example.com/x"
      (InternalRequestOptions.mk (Some Http.put)) None]).
Proof. reflexivity. Qed.

Example request_refused :
  @request node_refused (bare_client node_refused)
    (RequestOptions.mk Absent "http://localhost:1/") [] =
  (Normal (Rejected (Other "ECONNREFUSED")),
   [ViaHttp "http://localhost:1/"
      (InternalRequestOptions.mk (Some Http.get)) None]).
Proof. reflexivity. Qed.

Lemma C1_resolved_url_witness :
  @constructor node_ok (with_baseUrl "https://api.example.com//") =
    Normal (client_of node_ok "https://api.example.com//") /\
  exists filled,
    @fillRequestOptionDefaults node_ok
      (RequestOptions.mk Absent "///v1/items")
      (with_baseUrl "https://api.example.com//") = Normal filled /\
    RequestOptions.url filled = "https://api.example.com/v1/items".
Proof.
  split; [reflexivity|].
  exact (proj2
           (@C1_resolved_url node_ok
              (with_baseUrl "https://api.example.com//")
              (client_of node_ok "https://api.example.com//")
              "https://api.example.com//"
              (RequestOptions.mk Absent "///v1/items")
              eq_refl eq_refl)
           2 3 eq_refl eq_refl).
Defined.

Lemma C2_request_success_witness :
  @constructor node_ok (with_baseUrl "https://api.example.com/") =
    Normal (client_of node_ok "https://api.example.com/") /\
  @request node_ok (client_of node_ok "https://api.example.com/")
    (RequestOptions.mk Absent "/x") [] =
    (Normal
       (Fulfilled
          (hello_response
             (RequestOptions.mk (Value Http.get)
                "https://api.example.com/x"))),
     [ViaHttps "https://api.example.com/x"
        (InternalRequestOptions.mk (Some Http.get)) None]) /\
  exists filled internalResponse,
    @fillRequestOptionDefaults node_ok (RequestOptions.mk Absent "/x")
      (with_baseUrl "https://api.example.com/") = Normal filled /\
    hasProtocol (RequestOptions.url filled) = true /\
    @asyncRequest node_ok
      (RequestOptions.url filled)
      (InternalRequestOptions.mk (read (RequestOptions.method filled)))
      None
      (hasSecureProtocol (RequestOptions.url filled)) [] =
      (Normal (Fulfilled internalResponse),
       [ViaHttps "https://api.example.com/x"
          (InternalRequestOptions.mk (Some Http.get)) None]) /\
    [] = InternalResponse.headers internalResponse /\
    "hello" = InternalResponse.rawData internalResponse /\
    200%Z = InternalResponse.statusCode internalResponse /\
    "OK" = InternalResponse.statusMessage internalResponse /\
    [] = InternalResponse.trailers internalResponse /\
    RequestOptions.mk (Value Http.get) "https://api.example.com/x" = filled.
Proof.
  split; [reflexivity|]. split; [reflexivity|].
  exact (@C2_request_success node_ok
           (with_baseUrl "https://api.example.com/")
           (client_of node_ok "https://api.example.com/")
           (RequestOptions.mk Absent "/x")
           []
           [ViaHttps "https://api.example.com/x"
              (InternalRequestOptions.mk (Some Http.get)) None]
           (hello_response
              (RequestOptions.mk (Value Http.get)
                 "https://api.example.com/x"))
           eq_refl eq_refl).
Defined.

Lemma C3_missing_baseUrl_rejects_witness :
  hasProtocol "/x" = false /\
  read (WebClientOptions.baseUrl (WebClient.options (bare_client node_ok))) =
    None /\
  @request node_ok (bare_client node_ok) (RequestOptions.mk Absent "/x") [] =
    (Normal
       (Rejected
          (TypeError
             "`url` doesn't include a protocol and `baseUrl` isn't set")),
     []).
Proof.
  split; [reflexivity|]. split; [reflexivity|].
  exact (proj2
           (@C3_missing_baseUrl_rejects node_ok (bare_client node_ok)
              (RequestOptions.mk Absent "/x") [] eq_refl eq_refl)).
Defined.

(** C3 as first stated fails: on the client [new WebClient({})], the call
    [request({ url: '/x' })] does not throw. *)
Lemma C3_request_does_not_throw :
  @constructor node_ok no_options = Normal (bare_client node_ok) /\
  hasProtocol "/x" = false /\
  ~ exists e w',
      @request node_ok (bare_client node_ok)
        (RequestOptions.mk Absent "/x") [] = (Throw e, w').
Proof.
  split; [reflexivity|]. split; [reflexivity|].
  intros (e & w' & Hthrow). vm_compute in Hthrow. discriminate Hthrow.
Qed.

Lemma C4_baseUrl_checked_by_constructor_witness :
  (read (WebClientOptions.baseUrl
           (@with_baseUrl node_ok "ftp://files.example.com")) =
     Some "ftp://files.example.com" /\
   startsWith "ftp://files.example.com" "http:" = false /\
   startsWith "ftp://files.example.com" "https:" = false /\
   @constructor node_ok (with_baseUrl "ftp://files.example.com") =
     Throw (TypeError "`baseUrl` doesn't include a protocol")) /\
  exists filled,
    @fillRequestOptionDefaults node_ok (RequestOptions.mk Absent "/x")
      (WebClient.options (client_of node_ok "ftp://files.example.com")) =
    Normal filled.
Proof.
  split.
  - repeat (split; [reflexivity|]).
    exact (proj1 (@C4_baseUrl_checked_by_constructor node_ok)
             (with_baseUrl "ftp://files.example.com")
             "ftp://files.example.com" eq_refl eq_refl eq_refl).
  - exact (proj2 (@C4_baseUrl_checked_by_constructor node_ok)
             (client_of node_ok "ftp://files.example.com")
             (RequestOptions.mk Absent "/x")
             "ftp://files.example.com" eq_refl).
Defined.

Lemma C5_default_filling_witness :
  RequestOptions.method
    (@newOptions node_ok (RequestOptions.mk (Value Http.post) "/x")
       (limited_options "http://api.example.com")) = Value Http.post /\
  RequestOptions.method
    (@newOptions node_ok (RequestOptions.mk Absent "/x")
       (limited_options "http://api.example.com")) = Value Http.put /\
  RequestOptions.method
    (@newOptions node_ok (RequestOptions.mk Absent "/x") no_options) =
    Value Http.get.
Proof.
  split; [|split].
  - exact (proj1
             (@C5_default_filling node_ok
                (RequestOptions.mk (Value Http.post) "/x")
                (limited_options "http://api.example.com"))
             Http.post eq_refl).
  - exact (proj1 (proj2 (proj2
             (@C5_default_filling node_ok
                (RequestOptions.mk Absent "/x")
                (limited_options "http://api.example.com"))))
             Http.put eq_refl eq_refl).
  - exact (proj1 (proj2 (proj2 (proj2
             (@C5_default_filling node_ok
                (RequestOptions.mk Absent "/x") no_options))))
             eq_refl eq_refl).
Defined.

Lemma C6_secure_by_resolved_url_witness :
  @constructor node_ok (with_baseUrl "https://api.example.com") =
    Normal (client_of node_ok "https://api.example.com") /\
  @fillRequestOptionDefaults node_ok (RequestOptions.mk Absent "x")
    (with_baseUrl "https://api.example.com") =
    Normal (RequestOptions.mk (Value Http.get) "https://api.example.com/x") /\
  startsWith "https://api.example.com/x" "https:" = true /\
  @request node_ok (client_of node_ok "https://api.example.com")
    (RequestOptions.mk Absent "x") [] =
  @async node_ok _
    (@bind node_ok _ _
       (fun w =>
          @new_Promise node_ok None
            (@requestHttps node_ok "https://api.example.com/x"
               (InternalRequestOptions.mk (Some Http.get)) None w))
       (fun internalResponse =>
          @ret node_ok _
            (Response.assemble internalResponse
               (RequestOptions.mk (Value Http.get)
                  "https://api.example.com/x")))) [].
Proof.
  split; [reflexivity|]. split; [reflexivity|]. split; [reflexivity|].
  exact (proj1 (proj2
           (@C6_secure_by_resolved_url node_ok
              (with_baseUrl "https://api.example.com")
              (client_of node_ok "https://api.example.com")
              (RequestOptions.mk Absent "x")
              (RequestOptions.mk (Value Http.get) "https://api.example.com/x")
              [] eq_refl eq_refl) eq_refl) eq_refl).
Defined.

(** C6 as first stated fails: the limiter is part of the client options,
    and on the client with the flag-flipping limiter the request of a URL
    resolved to ["https://api.example.com/x"] goes through [requestHttp]. *)
Lemma C6_limiter_decides_the_route :
  @constructor node_ok (flipping_options "https://api.example.com") =
    Normal (flipping_client "https://api.example.com") /\
  @fillRequestOptionDefaults node_ok (RequestOptions.mk Absent "x")
    (flipping_options "https://api.example.com") =
    Normal (RequestOptions.mk (Value Http.get) "https://api.example.com/x") /\
  startsWith "https://api.example.com/x" "https:" = true /\
  @request node_ok (flipping_client "https://api.example.com")
    (RequestOptions.mk Absent "x") [] =
    (Normal
       (Fulfilled
          (hello_response
             (RequestOptions.mk (Value Http.get)
                "https://api.example.com/x"))),
     [ViaHttp "https://api.example.com/x"
        (InternalRequestOptions.mk (Some Http.get)) None]) /\
  @request node_ok (flipping_client "https://api.example.com")
    (RequestOptions.mk Absent "x") [] <>
  @async node_ok _
    (@bind node_ok _ _
       (fun w =>
          @new_Promise node_ok None
            (@requestHttps node_ok "https://api.example.com/x"
               (InternalRequestOptions.mk (Some Http.get)) None w))
       (fun internalResponse =>
          @ret node_ok _
            (Response.assemble internalResponse
               (RequestOptions.mk (Value Http.get)
                  "https://api.example.com/x")))) [].
Proof.
  repeat (split; [reflexivity|]).
  intros Hsame. vm_compute in Hsame. discriminate Hsame.
Qed.

Lemma C7_extend_constructs_from_merge_witness :
  @constructor node_ok (limited_options "http://api.example.com") =
    Normal (limited_client "http://api.example.com") /\
  @extend node_ok (limited_client "http://api.example.com")
    (Some (WebClientOptions.mk (Value "ftp://files.example.com") Absent
             Undefined)) =
    Throw (TypeError "`baseUrl` doesn't include a protocol") /\
  exists child,
    @extend node_ok (limited_client "http://api.example.com")
      (Some (WebClientOptions.mk Absent (Value Http.post) Absent)) =
      Normal child /\
    WebClientOptions.defaultMethod (WebClient.options child) =
      Value Http.post.
Proof.
  split; [reflexivity|].
  pose (thm := @C7_extend_constructs_from_merge node_ok
                 (limited_options "http://api.example.com")
                 (limited_client "http://api.example.com")).
  split.
  - exact (proj1 (proj2
             (thm (Some (WebClientOptions.mk (Value "ftp://files.example.com")
                           Absent Undefined)) eq_refl))
             "ftp://files.example.com" eq_refl eq_refl).
  - destruct (proj2 (proj2 (proj2
               (thm (Some (WebClientOptions.mk Absent (Value Http.post)
                             Absent)) eq_refl))))
      as (child & Hchild & Hmethod & _).
    exists child. split; assumption.
Defined.

Lemma C8_response_url_absolute_witness :
  @constructor node_ok (limited_options "http://api.example.com") =
    Normal (limited_client "http://api.example.com") /\
  hasProtocol "http://api.example.com/x" = true /\
  exists baseUrl,
    read (WebClientOptions.baseUrl
            (limited_options "http://api.example.com")) = Some baseUrl /\
    hasProtocol baseUrl = true /\
    "http://api.example.com/x" = resolved_url_spec baseUrl "x".
Proof.
  split; [reflexivity|].
  pose (thm := @C8_response_url_absolute node_ok
                 (limited_options "http://api.example.com")
                 (limited_client "http://api.example.com")
                 (RequestOptions.mk Absent "x")
                 []
                 [Limited "http://api.example.com/x";
                  ViaHttp "http://api.example.com/x"
                    (InternalRequestOptions.mk (Some Http.put)) None]
                 (hello_response
                    (RequestOptions.mk (Value Http.put)
                       "http://api.example.com/x"))
                 eq_refl eq_refl).
  split; [exact (proj1 thm)|exact (proj2 (proj2 thm) eq_refl)].
Defined.

Lemma C9_transport_error_propagates_witness :
  @fillRequestOptionDefaults node_refused
    (RequestOptions.mk Absent "http://localhost:1/")
    (WebClient.options (bare_client node_refused)) =
    Normal (RequestOptions.mk (Value Http.get) "http://localhost:1/") /\
  @asyncRequest node_refused "http://localhost:1/"
    (InternalRequestOptions.mk (Some Http.get)) None false [] =
    (Normal (Rejected (Other "ECONNREFUSED")),
     [ViaHttp "http://localhost:1/"
        (InternalRequestOptions.mk (Some Http.get)) None]) /\
  @request node_refused (bare_client node_refused)
    (RequestOptions.mk Absent "http://localhost:1/") [] =
    (Normal (Rejected (Other "ECONNREFUSED")),
     [ViaHttp "http://localhost:1/"
        (InternalRequestOptions.mk (Some Http.get)) None]).
Proof.
  split; [reflexivity|]. split.
  - exact (proj1 (proj2 (@C9_transport_error_propagates node_refused))
             "http://localhost:1/"
             (InternalRequestOptions.mk (Some Http.get)) None false
             []
             [ViaHttp "http://localhost:1/"
                (InternalRequestOptions.mk (Some Http.get)) None]
             [] [] (Other "ECONNREFUSED") eq_refl eq_refl).
  - exact (proj1 (@C9_transport_error_propagates node_refused)
             (bare_client node_refused)
             (RequestOptions.mk Absent "http://localhost:1/")
             (RequestOptions.mk (Value Http.get) "http://localhost:1/")
             []
             [ViaHttp "http://localhost:1/"
                (InternalRequestOptions.mk (Some Http.get)) None]
             (Other "ECONNREFUSED") eq_refl eq_refl).
Defined.

Lemma C10_explicit_undefined_method_witness :
  RequestOptions.method (RequestOptions.mk Undefined "x") = Undefined /\
  RequestOptions.method
    (@newOptions node_ok (RequestOptions.mk Undefined "x")
       (limited_options "http://api.example.com")) = Undefined /\
  RequestOptions.method
    (Response.requestOptions
       (hello_response
          (RequestOptions.mk Undefined "http://api.example.com/x"))) =
    Undefined.
Proof.
  split; [reflexivity|].
  pose (thm := @C10_explicit_undefined_method node_ok
                 (limited_client "http://api.example.com")
                 (RequestOptions.mk Undefined "x") eq_refl).
  split; [exact (proj1 thm)|].
  exact (proj2 (proj2 thm)
           []
           [Limited "http://api.example.com/x";
            ViaHttp "http://api.example.com/x"
              (InternalRequestOptions.mk None) None]
           (hello_response
              (RequestOptions.mk Undefined "http://api.example.com/x"))
           eq_refl).
Defined.

(** * Further properties of the client module *)

(** ** Protocols *)

Lemma prefix_append (p r : string) : String.prefix p (p ++ r) = true.
Proof.
  induction p as [|a p IH].
  - destruct r; reflexivity.
  - change (String a p ++ r) with (String a (p ++ r)).
    rewrite prefix_cons, Ascii.eqb_refl, IH. reflexivity.
Qed.

(** X1. [hasProtocol] holds of the strings that begin with [http:] or with
    [https:], in lower case, and of no other. *)
Theorem X1_hasProtocol_prefixes :
  forall url : string,
    hasProtocol url = true <->
    (exists rest, url = "http:" ++ rest) \/
    (exists rest, url = "https:" ++ rest).
Proof.
  intros url. rewrite hasProtocol_startsWith, orb_true_iff.
  unfold startsWith. split.
  - intros [Hp|Hp]; apply prefix_split in Hp; [left|right]; exact Hp.
  - intros [[rest ->]|[rest ->]]; [left|right]; apply prefix_append.
Qed.

(** X2. A URL with the secure protocol has a protocol, and a URL with a
    protocol that is not the secure one begins with [http:]. *)
Theorem X2_secure_is_a_protocol :
  forall url : string,
    (hasSecureProtocol url = true -> hasProtocol url = true) /\
    (hasProtocol url = true -> hasSecureProtocol url = false ->
     startsWith url "http:" = true).
Proof.
  intros url. rewrite hasProtocol_startsWith.
  unfold hasSecureProtocol. split.
  - intros ->. apply orb_true_r.
  - intros Hp Hs. rewrite Hs, orb_false_r in Hp. exact Hp.
Qed.

(** X19. The nine members of [Http.Method] have pairwise distinct string
    values. *)
Theorem X19_Method_values_distinct :
  forall a b : Http.Method,
    Http.Method_value a = Http.Method_value b -> a = b.
Proof.
  intros a b; destruct a, b; intros Hv; try reflexivity; discriminate Hv.
Qed.

(** ** Filling the request options *)

Section FillingProperties.

Context `{NodeHttp}.

Lemma hasProtocol_slashes_app (m : nat) (url : string) :
  hasProtocol url = false -> hasProtocol (slashes m ++ url) = false.
Proof.
  intros Hu. destruct m as [|m]; [exact Hu|].
  rewrite hasProtocol_startsWith. reflexivity.
Qed.

Lemma newOptions_method_present (options : RequestOptions.t)
    (clientOptions : WebClientOptions.t transport) :
  RequestOptions.method (newOptions options clientOptions) <> Absent.
Proof.
  unfold newOptions; cbn [RequestOptions.method].
  destruct (RequestOptions.method options); discriminate.
Qed.

(** X3. On a client made by the constructor, a request whose URL has no
    protocol is resolved to a URL with the secure protocol exactly when the
    [baseUrl] of the client has it. *)
Theorem X3_relative_request_secure_as_baseUrl :
  forall (clientOptions : WebClientOptions.t transport)
         (this : WebClient.t transport) (baseUrl : string)
         (options filled : RequestOptions.t),
    constructor clientOptions = Normal this ->
    read (WebClientOptions.baseUrl clientOptions) = Some baseUrl ->
    hasProtocol (RequestOptions.url options) = false ->
    fillRequestOptionDefaults options (WebClient.options this) =
      Normal filled ->
    hasSecureProtocol (RequestOptions.url filled) = hasSecureProtocol baseUrl.
Proof.
  intros clientOptions this baseUrl options filled Hc Hb Hp Hf.
  apply constructor_Normal in Hc as (Ho & _ & Hv). rewrite Ho in Hf.
  rewrite (fill_relative _ _ _ Hp Hb) in Hf. injection Hf as <-.
  cbn [RequestOptions.url]. unfold resolved_url_spec, hasSecureProtocol.
  specialize (Hv baseUrl Hb). rewrite hasProtocol_startsWith in Hv.
  unfold startsWith in *. apply orb_true_iff in Hv as [Hv|Hv];
    apply prefix_split in Hv as [r ->].
  - change ("http:" ++ r) with ("http" ++ String ":" r) at 1.
    rewrite strip_trailing_through by reflexivity. reflexivity.
  - change ("https:" ++ r) with ("https" ++ String ":" r) at 1.
    rewrite strip_trailing_through by reflexivity.
    change ("https" ++ String ":" (strip_trailing_slashes r))
      with ("https:" ++ strip_trailing_slashes r).
    rewrite append_assoc, !prefix_append. reflexivity.
Qed.

(** X4. [fillRequestOptionDefaults] throws exactly when the URL has no
    protocol and the client options hold no [baseUrl] value, and what it
    throws is always the same [TypeError]. *)
Theorem X4_fill_only_error :
  forall (options : RequestOptions.t)
         (clientOptions : WebClientOptions.t transport),
    ((exists e, fillRequestOptionDefaults options clientOptions = Throw e) <->
     hasProtocol (RequestOptions.url options) = false /\
     read (WebClientOptions.baseUrl clientOptions) = None) /\
    (forall e,
       fillRequestOptionDefaults options clientOptions = Throw e ->
       e = TypeError
             "`url` doesn't include a protocol and `baseUrl` isn't set").
Proof.
  intros options clientOptions.
  destruct (hasProtocol (RequestOptions.url options)) eqn:Hp.
  - rewrite (fill_absolute _ _ Hp). split.
    + split; [intros [e He]; discriminate He|intros [Hf _]; discriminate Hf].
    + intros e He; discriminate He.
  - destruct (read (WebClientOptions.baseUrl clientOptions)) as [b|] eqn:Hb.
    + rewrite (fill_relative _ _ _ Hp Hb). split.
      * split; [intros [e He]; discriminate He|intros [_ Hf]; discriminate Hf].
      * intros e He; discriminate He.
    + rewrite (fill_no_baseUrl _ _ Hp Hb). split.
      * split; [intros _; split; reflexivity|intros _; eexists; reflexivity].
      * intros e [= <-]; reflexivity.
Qed.

(** X5. On a client made by the constructor, filling is idempotent: options
    that were filled are left as they are by a second filling. *)
Theorem X5_fill_idempotent :
  forall (clientOptions : WebClientOptions.t transport)
         (this : WebClient.t transport) (options filled : RequestOptions.t),
    constructor clientOptions = Normal this ->
    fillRequestOptionDefaults options (WebClient.options this) =
      Normal filled ->
    fillRequestOptionDefaults filled (WebClient.options this) = Normal filled.
Proof.
  intros clientOptions this options filled Hc Hf.
  pose proof (fill_hasProtocol _ _ _ _ Hc Hf) as Hp.
  rewrite (fill_absolute _ _ Hp). f_equal.
  pose proof (fill_method _ _ _ Hf) as Hm.
  pose proof (newOptions_method_present options (WebClient.options this))
    as Hpresent.
  rewrite <- Hm in Hpresent.
  destruct filled as [method url]. unfold newOptions.
  cbn [RequestOptions.method RequestOptions.url] in *.
  destruct method; [congruence|reflexivity..].
Qed.

(** X6. The filled options always hold the key [method]; its value, which
    is the method handed to the transport function, is [undefined] only for
    request options that hold [method: undefined] themselves. *)
Theorem X6_filled_method_present :
  forall (options filled : RequestOptions.t)
         (clientOptions : WebClientOptions.t transport),
    fillRequestOptionDefaults options clientOptions = Normal filled ->
    RequestOptions.method filled <> Absent /\
    (read (RequestOptions.method filled) = None <->
     RequestOptions.method options = Undefined).
Proof.
  intros options filled clientOptions Hf.
  rewrite (fill_method _ _ _ Hf). split.
  - apply newOptions_method_present.
  - unfold newOptions; cbn [RequestOptions.method].
    destruct (RequestOptions.method options); cbn [spread read];
      split; intros Hx; try reflexivity; discriminate Hx.
Qed.

(** X7. Slashes added at the end of [baseUrl] or at the start of a request
    URL without protocol do not change the filled options. *)
Theorem X7_slash_runs_do_not_matter :
  forall (method : prop Http.Method) (baseUrl url : string) (n m : nat)
         (defaultMethod : prop Http.Method)
         (limiter : prop (transport -> transport)),
    hasProtocol url = false ->
    fillRequestOptionDefaults
      (RequestOptions.mk method (slashes m ++ url))
      (WebClientOptions.mk (Value (baseUrl ++ slashes n)) defaultMethod
         limiter) =
    fillRequestOptionDefaults
      (RequestOptions.mk method url)
      (WebClientOptions.mk (Value baseUrl) defaultMethod limiter).
Proof.
  intros method baseUrl url n m defaultMethod limiter Hu.
  rewrite (fill_relative
             (RequestOptions.mk method (slashes m ++ url))
             (WebClientOptions.mk (Value (baseUrl ++ slashes n)) defaultMethod
                limiter)
             (baseUrl ++ slashes n)
             (hasProtocol_slashes_app m url Hu) eq_refl).
  rewrite (fill_relative
             (RequestOptions.mk method url)
             (WebClientOptions.mk (Value baseUrl) defaultMethod limiter)
             baseUrl Hu eq_refl).
  unfold resolved_url_spec; cbn [RequestOptions.url].
  rewrite strip_trailing_app_slashes, strip_leading_slashes_app.
  reflexivity.
Qed.

(** X8. The resolved URL has exactly one slash at the joint: it is
    [t ++ "/" ++ u] where [baseUrl] is [t] followed by slashes only, [t] does
    not end with a slash, the request URL is [u] preceded by slashes only,
    and [u] does not begin with a slash. *)
Theorem X8_one_joining_slash :
  forall (options filled : RequestOptions.t)
         (clientOptions : WebClientOptions.t transport) (baseUrl : string),
    read (WebClientOptions.baseUrl clientOptions) = Some baseUrl ->
    hasProtocol (RequestOptions.url options) = false ->
    fillRequestOptionDefaults options clientOptions = Normal filled ->
    exists (t u : string) (n m : nat),
      baseUrl = t ++ slashes n /\
      RequestOptions.url options = slashes m ++ u /\
      (forall t', t <> t' ++ "/") /\
      (forall u', u <> String "/" u') /\
      RequestOptions.url filled = t ++ "/" ++ u.
Proof.
  intros options filled clientOptions baseUrl Hb Hp Hf.
  rewrite (fill_relative _ _ _ Hp Hb) in Hf. injection Hf as <-.
  destruct (strip_trailing_slashes_spec baseUrl) as (n & Hn & Hlast).
  destruct (strip_leading_slashes_spec (RequestOptions.url options))
    as (m & Hm & Hfirst).
  exists (strip_trailing_slashes baseUrl),
         (strip_leading_slashes (RequestOptions.url options)), n, m.
  repeat split; assumption || reflexivity.
Qed.

(** X9. With a [baseUrl], a request URL that is empty or made of slashes
    only is accepted, and resolved to [baseUrl] with its trailing slashes
    replaced by one slash. *)
Theorem X9_empty_request_url :
  forall (method : prop Http.Method) (m : nat)
         (clientOptions : WebClientOptions.t transport) (baseUrl : string),
    read (WebClientOptions.baseUrl clientOptions) = Some baseUrl ->
    exists filled,
      fillRequestOptionDefaults (RequestOptions.mk method (slashes m))
        clientOptions = Normal filled /\
      RequestOptions.url filled = strip_trailing_slashes baseUrl ++ "/".
Proof.
  intros method m clientOptions baseUrl Hb.
  assert (Hp : hasProtocol (slashes m) = false).
  { rewrite hasProtocol_startsWith. destruct m; reflexivity. }
  eexists; split;
    [exact (fill_relative (RequestOptions.mk method (slashes m)) _ _ Hp Hb)|].
  cbn [RequestOptions.url]. unfold resolved_url_spec.
  assert (Hs : strip_leading_slashes (slashes m) = "").
  { clear Hp. induction m as [|m IH]; [reflexivity|exact IH]. }
  rewrite Hs. reflexivity.
Qed.

End FillingProperties.

(** ** Constructing and extending clients *)

Section ClientProperties.

Context `{NodeHttp}.

Lemma spread_assoc (A : Type) (a b c : prop A) :
  spread (spread a b) c = spread a (spread b c).
Proof. destruct c; reflexivity. Qed.

Lemma WebClientOptions_spread_assoc (F : Type)
    (a b : WebClientOptions.t F) (c : option (WebClientOptions.t F)) :
  WebClientOptions.spread (WebClientOptions.spread a (Some b)) c =
  WebClientOptions.spread a (Some (WebClientOptions.spread b c)).
Proof.
  destruct c as [c|]; [|reflexivity].
  cbn [WebClientOptions.spread WebClientOptions.baseUrl
       WebClientOptions.defaultMethod WebClientOptions.limiter].
  rewrite !spread_assoc. reflexivity.
Qed.

(** X10. A client returned by the constructor holds the options it was
    given, and a [baseUrl] that has no value (absent or [undefined]) or has a
    protocol. For options without limiter value, where no code of the caller
    runs, the constructor returns a client, with [asyncRequest] as transport
    function, for every such [baseUrl], and the only thing it throws is its
    [TypeError], for a [baseUrl] value without protocol. *)
Theorem X10_constructor_accepts :
  forall clientOptions : WebClientOptions.t transport,
    (forall this,
       constructor clientOptions = Normal this ->
       WebClient.options this = clientOptions /\
       forall baseUrl,
         read (WebClientOptions.baseUrl clientOptions) = Some baseUrl ->
         hasProtocol baseUrl = true) /\
    (read (WebClientOptions.limiter clientOptions) = None ->
     ((forall baseUrl,
         read (WebClientOptions.baseUrl clientOptions) = Some baseUrl ->
         hasProtocol baseUrl = true) ->
      constructor clientOptions =
        Normal (WebClient.mk clientOptions asyncRequest)) /\
     (forall e,
        constructor clientOptions = Throw e ->
        e = TypeError "`baseUrl` doesn't include a protocol" /\
        exists baseUrl,
          read (WebClientOptions.baseUrl clientOptions) = Some baseUrl /\
          hasProtocol baseUrl = false)).
Proof.
  intros clientOptions. split.
  - intros this Hc. apply constructor_Normal in Hc as (Ho & _ & Hb).
    split; assumption.
  - intros Hl. unfold constructor. rewrite Hl.
    destruct (read (WebClientOptions.baseUrl clientOptions)) as [b|].
    + destruct (hasProtocol b) eqn:Hp; cbn [negb]; split.
      * intros _. reflexivity.
      * intros e He; discriminate He.
      * intros Hb. specialize (Hb b eq_refl). congruence.
      * intros e [= <-]. split; [reflexivity|].
        exists b. split; [reflexivity|exact Hp].
    + split; [intros _; reflexivity|]. intros e He; discriminate He.
Qed.

(** X12. Extending in two steps is extending once with the second
    overrides spread over the first, whenever the first step succeeds. *)
Theorem X12_extend_twice :
  forall (this child : WebClient.t transport)
         (first second : option (WebClientOptions.t transport)),
    extend this first = Normal child ->
    extend child second =
    extend this
      (match first with
       | Some overrides => Some (WebClientOptions.spread overrides second)
       | None => second
       end).
Proof.
  intros this child first second Hfirst.
  unfold extend in Hfirst. apply constructor_Normal in Hfirst as (Ho & _).
  unfold extend. rewrite Ho.
  destruct first as [a|]; [|reflexivity].
  rewrite WebClientOptions_spread_assoc. reflexivity.
Qed.

(** X13. Overrides that hold [baseUrl: undefined] remove the inherited
    base URL: the extension succeeds on every client, and on the new client
    a request whose URL has no protocol is rejected with the [TypeError] of
    the missing [baseUrl], without a call of the transport function. *)
Theorem X13_extend_clears_baseUrl :
  forall this : WebClient.t transport,
  exists child,
    extend this (Some (WebClientOptions.mk Undefined Absent Absent)) =
      Normal child /\
    read (WebClientOptions.baseUrl (WebClient.options child)) = None /\
    WebClientOptions.defaultMethod (WebClient.options child) =
      WebClientOptions.defaultMethod (WebClient.options this) /\
    forall (options : RequestOptions.t) (w : World),
      hasProtocol (RequestOptions.url options) = false ->
      request child options w =
        (Normal
           (Rejected
              (TypeError
                 "`url` doesn't include a protocol and `baseUrl` isn't set")),
         w).
Proof.
  intros this. eexists. split; [reflexivity|].
  cbn [WebClient.options WebClientOptions.spread WebClientOptions.baseUrl
       WebClientOptions.defaultMethod spread read].
  split; [reflexivity|]. split; [reflexivity|].
  intros options w Hp. rewrite request_unfold.
  rewrite (fill_no_baseUrl _ _ Hp); reflexivity.
Qed.

(** X18. For a request whose URL has a protocol, the [baseUrl] of the
    client plays no part: two clients with the same transport function and
    the same default method behave alike, even when one has no [baseUrl]. *)
Theorem X18_absolute_url_ignores_baseUrl :
  forall (requestFn : transport)
         (first second : WebClientOptions.t transport)
         (options : RequestOptions.t) (w : World),
    hasProtocol (RequestOptions.url options) = true ->
    read (WebClientOptions.defaultMethod first) =
      read (WebClientOptions.defaultMethod second) ->
    request (WebClient.mk first requestFn) options w =
    request (WebClient.mk second requestFn) options w.
Proof.
  intros requestFn first second options w Hp Hd.
  rewrite !request_unfold. cbn [WebClient.options WebClient.requestFn].
  rewrite !(fill_absolute _ _ Hp). unfold newOptions. rewrite Hd.
  reflexivity.
Qed.

End ClientProperties.

(** ** The transport function *)

Lemma append_empty_r (s : string) : s ++ "" = s.
Proof.
  induction s as [|a s IH]; simpl; [|rewrite IH]; reflexivity.
Qed.

Lemma concat_empty_cons (x : string) (xs : list string) :
  String.concat "" (x :: xs) = x ++ String.concat "" xs.
Proof.
  destruct xs as [|y ys]; simpl; [rewrite append_empty_r|]; reflexivity.
Qed.

Section TransportProperties.

Context `{NodeHttp}.

Lemma deliver_chunks (body : option Body) (response : IncomingMessage.t)
    (chunks : list string) (result : string)
    (p : promise err InternalResponse.t) :
  fold_left (deliver body) (map ResponseData chunks)
    (mk_listeners (Some (response, result)) p) =
  mk_listeners (Some (response, result ++ String.concat "" chunks)) p.
Proof.
  revert result; induction chunks as [|chunk chunks IH]; intros result.
  - simpl. rewrite append_empty_r. reflexivity.
  - rewrite concat_empty_cons, <- append_assoc.
    cbn [map fold_left deliver on_response settled]. apply IH.
Qed.

(** The response whose listeners are installed never changes. *)
Lemma deliver_on_response (body : option Body) (st : listeners)
    (ev : event Thrown) (response : IncomingMessage.t) (result : string) :
  on_response st = Some (response, result) ->
  exists result', on_response (deliver body st ev) = Some (response, result').
Proof.
  intros Hr. unfold deliver.
  destruct ev, body; rewrite ?Hr; cbn [on_response]; rewrite ?Hr;
    eexists; reflexivity.
Qed.

Lemma fold_deliver_rejected (body : option Body)
    (events : list (event Thrown)) (st : listeners) (e : err) :
  settled (fold_left (deliver body) events st) = Rejected e ->
  settled st = Rejected e \/
  In (RequestError e) events \/
  In (ResponseError e) events \/
  (body <> None /\ In (WriteCallback e) events).
Proof.
  revert st; induction events as [|ev events IH]; intros st Hs.
  - left; exact Hs.
  - cbn [fold_left] in Hs. apply IH in Hs as [Hs|[Hs|[Hs|[Hb Hs]]]].
    + unfold deliver, resolve, reject in Hs.
      destruct ev as [e'|e'|r|chunk| |e'], body as [b|],
               (on_response st) as [[r' t']|], (settled st) as [a|e''|];
        cbn [settled] in Hs; try discriminate Hs;
        try (left; exact Hs);
        injection Hs as ->;
        solve [ right; left; left; reflexivity
              | right; right; left; left; reflexivity
              | right; right; right; split;
                [discriminate|left; reflexivity] ].
    + right; left; right; exact Hs.
    + right; right; left; right; exact Hs.
    + right; right; right; split; [exact Hb|right; exact Hs].
Qed.

Lemma fold_deliver_fulfilled (body : option Body)
    (events : list (event Thrown)) (st : listeners)
    (ir : InternalResponse.t) :
  settled (fold_left (deliver body) events st) = Fulfilled ir ->
  settled st = Fulfilled ir \/
  (In ResponseEnd events /\
   exists response,
     ((exists result, on_response st = Some (response, result)) \/
      (on_response st = None /\ In (ResponseCallback response) events)) /\
     InternalResponse.headers ir = IncomingMessage.headers response /\
     InternalResponse.statusCode ir = IncomingMessage.statusCode response /\
     InternalResponse.statusMessage ir =
       IncomingMessage.statusMessage response /\
     InternalResponse.trailers ir = IncomingMessage.trailers response).
Proof.
  revert st; induction events as [|ev events IH]; intros st Hs.
  - left; exact Hs.
  - cbn [fold_left] in Hs. apply IH in Hs as [Hs|(Hend & r & Hr & Hmeta)].
    + unfold deliver, resolve, reject in Hs.
      destruct ev as [e'|e'|r|chunk| |e'], body as [b|],
               (on_response st) as [[r' t']|] eqn:Er,
               (settled st) as [a|e''|];
        cbn [settled] in Hs; try discriminate Hs;
        try (left; exact Hs);
        injection Hs as <-;
        (right; split; [left; reflexivity|]; exists r'; split;
         [left; eexists; reflexivity|repeat split; reflexivity]).
    + right. split; [right; exact Hend|]. exists r. split; [|exact Hmeta].
      destruct (on_response st) as [[r' t']|] eqn:Er.
      * left. destruct Hr as [[result Hr]|[Hr _]].
        -- destruct (deliver_on_response body st ev r' t' Er) as [t'' Hd].
           rewrite Hd in Hr. injection Hr as <- _. eexists; reflexivity.
        -- destruct (deliver_on_response body st ev r' t' Er) as [t'' Hd].
           rewrite Hd in Hr. discriminate Hr.
      * right. split; [reflexivity|].
        destruct Hr as [[result Hr]|[_ Hr]]; [|right; exact Hr].
        unfold deliver in Hr.
        destruct ev as [e'|e'|r0|chunk| |e'], body as [b|];
          rewrite ?Er in Hr; cbn [on_response] in Hr; rewrite ?Er in Hr;
          try discriminate Hr.
        -- injection Hr as -> _. left; reflexivity.
        -- injection Hr as -> _. left; reflexivity.
Qed.

(** X14. For a request without body: when Node passes a response to the
    callback, then its data chunks and then ['end'], [asyncRequest] fulfils
    its promise with the headers, status and trailers of that response, and
    with a [rawData] that is the concatenation, in their order, of the
    strings the chunks are converted to one by one ([toString] below; the
    body is not decoded as a whole). Whatever is delivered after ['end'],
    errors included, changes nothing. *)
Theorem X14_rawData_is_the_chunks_in_order :
  forall (Buffer : Type) (toString : Buffer -> string)
         (url : string) (options : InternalRequestOptions.t)
         (secure : bool) (w w' : World)
         (response : IncomingMessage.t) (chunks : list Buffer)
         (after : list (event Thrown)),
    (if secure then requestHttps else requestHttp) url options None w =
      (Normal
         (ResponseCallback response ::
          map (fun chunk => ResponseData (toString chunk)) chunks ++
          ResponseEnd :: after)%list,
       w') ->
    asyncRequest url options None secure w =
      (Normal
         (Fulfilled
            (InternalResponse.mk
               (IncomingMessage.headers response)
               (String.concat "" (map toString chunks))
               (IncomingMessage.statusCode response)
               (IncomingMessage.statusMessage response)
               (IncomingMessage.trailers response))),
       w').
Proof.
  intros Buffer toString url options secure w w' response chunks after Hp.
  unfold asyncRequest, async. rewrite Hp. unfold new_Promise, delivered.
  cbn [fold_left deliver on_response settled].
  rewrite <- (map_map toString ResponseData chunks).
  rewrite fold_left_app, deliver_chunks.
  cbn [fold_left deliver on_response settled resolve].
  rewrite fold_deliver_settled; [reflexivity|discriminate].
Qed.

(** X15. On a client without limiter, a synchronous throw of Node's
    [request] (of [https] for a resolved URL with the secure protocol, of
    [http] otherwise) does not escape: [request] returns a promise rejected
    with the thrown value. *)
Theorem X15_throw_of_node_is_a_rejection :
  forall (clientOptions : WebClientOptions.t transport)
         (this : WebClient.t transport) (options filled : RequestOptions.t)
         (w w' : World) (E : err),
    constructor clientOptions = Normal this ->
    read (WebClientOptions.limiter clientOptions) = None ->
    fillRequestOptionDefaults options (WebClient.options this) =
      Normal filled ->
    (if hasSecureProtocol (RequestOptions.url filled)
     then requestHttps else requestHttp)
      (RequestOptions.url filled)
      (InternalRequestOptions.mk (read (RequestOptions.method filled)))
      None w = (Throw E, w') ->
    request this options w = (Normal (Rejected E), w').
Proof.
  intros clientOptions this options filled w w' E Hc Hl Hf Hp.
  apply constructor_Normal in Hc as (_ & Hfn & _). rewrite Hl in Hfn.
  rewrite request_unfold, Hf, Hfn. unfold asyncRequest, async.
  rewrite Hp. reflexivity.
Qed.

(** X16. [asyncRequest] fulfils its promise only when Node has delivered
    ['end'], and the headers, status and trailers of the result are those of
    a response that was passed to the callback. *)
Theorem X16_fulfilled_only_after_end :
  forall (url : string) (options : InternalRequestOptions.t)
         (body : option Body) (secure : bool) (w w' : World)
         (ir : InternalResponse.t),
    asyncRequest url options body secure w = (Normal (Fulfilled ir), w') ->
    exists events response,
      (if secure then requestHttps else requestHttp) url options body w =
        (Normal events, w') /\
      In ResponseEnd events /\
      In (ResponseCallback response) events /\
      InternalResponse.headers ir = IncomingMessage.headers response /\
      InternalResponse.statusCode ir = IncomingMessage.statusCode response /\
      InternalResponse.statusMessage ir =
        IncomingMessage.statusMessage response /\
      InternalResponse.trailers ir = IncomingMessage.trailers response.
Proof.
  intros url options body secure w w' ir. unfold asyncRequest, async.
  destruct ((if secure then requestHttps else requestHttp) url options body w)
    as [[events|e] w''] eqn:Hp; unfold new_Promise; [|discriminate].
  intros [= Hs <-]. unfold delivered in Hs.
  apply fold_deliver_fulfilled in Hs as [Hs|(Hend & r & Hr & Hmeta)];
    [discriminate Hs|].
  exists events, r. split; [reflexivity|]. split; [exact Hend|].
  split; [|exact Hmeta].
  destruct Hr as [[result Hr]|[_ Hr]]; [discriminate Hr|exact Hr].
Qed.

(** X17. [asyncRequest] makes up no error: the reason of a rejected promise
    is the value Node's [request] threw, or the error of an ['error'] event
    of the request or of the response, or, and only when a body was written,
    the argument of the callback of [write]. *)
Theorem X17_rejection_reasons_come_from_node :
  forall (url : string) (options : InternalRequestOptions.t)
         (body : option Body) (secure : bool) (w w' : World) (e : err),
    asyncRequest url options body secure w = (Normal (Rejected e), w') ->
    (if secure then requestHttps else requestHttp) url options body w =
      (Throw e, w') \/
    exists events,
      (if secure then requestHttps else requestHttp) url options body w =
        (Normal events, w') /\
      (In (RequestError e) events \/
       In (ResponseError e) events \/
       (body <> None /\ In (WriteCallback e) events)).
Proof.
  intros url options body secure w w' e. unfold asyncRequest, async.
  destruct ((if secure then requestHttps else requestHttp) url options body w)
    as [[events|e'] w''] eqn:Hp; unfold new_Promise.
  - intros [= Hs <-]. right. exists events. split; [reflexivity|].
    unfold delivered in Hs.
    apply fold_deliver_rejected in Hs as [Hs|Hs]; [discriminate Hs|exact Hs].
  - intros [= <- <-]. left; reflexivity.
Qed.

End TransportProperties.

Section ExtensionProperties.

Context `{NodeHttp}.

(** X20. Extending a client made by the constructor with overrides that do
    not hold the key [baseUrl], when the merged options hold no limiter
    value (so that no code of the caller runs), never throws: the inherited
    [baseUrl] passes the validation again. The new client keeps that
    [baseUrl] and has [asyncRequest] as transport function. *)
Theorem X20_extend_keeping_baseUrl_succeeds :
  forall (clientOptions : WebClientOptions.t transport)
         (this : WebClient.t transport)
         (overrides : WebClientOptions.t transport),
    constructor clientOptions = Normal this ->
    WebClientOptions.baseUrl overrides = Absent ->
    read (spread (WebClientOptions.limiter clientOptions)
            (WebClientOptions.limiter overrides)) = None ->
    exists child,
      extend this (Some overrides) = Normal child /\
      WebClientOptions.baseUrl (WebClient.options child) =
        WebClientOptions.baseUrl clientOptions /\
      WebClient.requestFn child = asyncRequest.
Proof.
  intros clientOptions this overrides Hc Ha Hl.
  apply constructor_Normal in Hc as (Ho & _ & Hb).
  unfold extend, constructor. rewrite Ho.
  cbn [WebClientOptions.spread WebClientOptions.baseUrl
       WebClientOptions.limiter].
  rewrite Ha, Hl. cbn [spread].
  destruct (read (WebClientOptions.baseUrl clientOptions)) as [b|] eqn:Eb.
  - rewrite (Hb b eq_refl). eexists; repeat split; reflexivity.
  - eexists; repeat split; reflexivity.
Qed.

(** X21. When a body was given and Node calls the callback of [write] while
    the promise is pending, [asyncRequest] rejects the promise with the
    argument of that call, whatever follows, a response and its ['end']
    included. *)
Theorem X21_write_callback_rejects :
  forall (url : string) (options : InternalRequestOptions.t)
         (body : Body) (secure : bool) (w w' : World)
         (before after : list (event Thrown)) (e : err),
    (if secure then requestHttps else requestHttp) url options (Some body) w =
      (Normal (before ++ WriteCallback e :: after)%list, w') ->
    settled (delivered (Some body) before) = Pending ->
    asyncRequest url options (Some body) secure w =
      (Normal (Rejected e), w').
Proof.
  intros url options body secure w w' before after e Hp Hs.
  unfold asyncRequest, async. rewrite Hp. unfold new_Promise.
  rewrite delivered_app, fold_deliver_settled;
    cbn [deliver settled]; rewrite Hs; [reflexivity|discriminate].
Qed.

End ExtensionProperties.

(** ** Concrete runs of the further properties *)

Lemma X1_hasProtocol_prefixes_witness :
  (exists rest, "https://api.example.com" = "https:" ++ rest) /\
  hasProtocol "https://api.example.com" = true.
Proof.
  split; [exists "//api.example.com"; reflexivity|].
  exact (proj2 (X1_hasProtocol_prefixes "https://api.example.com")
           (or_intror (ex_intro _ "//api.example.com" eq_refl))).
Defined.

Lemma X2_secure_is_a_protocol_witness :
  hasSecureProtocol "https://api.example.com" = true /\
  hasProtocol "https://api.example.com" = true /\
  startsWith "http://api.example.com" "http:" = true.
Proof.
  split; [reflexivity|]. split.
  - exact (proj1 (X2_secure_is_a_protocol "https://api.example.com")
             eq_refl).
  - exact (proj2 (X2_secure_is_a_protocol "http://api.example.com")
             eq_refl eq_refl).
Defined.

Lemma X3_relative_request_secure_as_baseUrl_witness :
  @constructor node_ok (with_baseUrl "https://api.example.com/") =
    Normal (client_of node_ok "https://api.example.com/") /\
  hasSecureProtocol "https://api.example.com/x" =
  hasSecureProtocol "https://api.example.com/".
Proof.
  split; [reflexivity|].
  exact (@X3_relative_request_secure_as_baseUrl node_ok
           (with_baseUrl "https://api.example.com/")
           (client_of node_ok "https://api.example.com/")
           "https://api.example.com/"
           (RequestOptions.mk Absent "/x")
           (RequestOptions.mk (Value Http.get) "https://api.example.com/x")
           eq_refl eq_refl eq_refl eq_refl).
Defined.

Lemma X4_fill_only_error_witness :
  hasProtocol "/x" = false /\
  read (WebClientOptions.baseUrl (@no_options node_ok)) = None /\
  exists e,
    @fillRequestOptionDefaults node_ok (RequestOptions.mk Absent "/x")
      no_options = Throw e.
Proof.
  split; [reflexivity|]. split; [reflexivity|].
  exact (proj2 (proj1 (@X4_fill_only_error node_ok
                         (RequestOptions.mk Absent "/x") no_options))
           (conj eq_refl eq_refl)).
Defined.

Lemma X5_fill_idempotent_witness :
  @fillRequestOptionDefaults node_ok (RequestOptions.mk Absent "/x")
    (with_baseUrl "https://api.example.com/") =
    Normal (RequestOptions.mk (Value Http.get) "https://api.example.com/x") /\
  @fillRequestOptionDefaults node_ok
    (RequestOptions.mk (Value Http.get) "https://api.example.com/x")
    (with_baseUrl "https://api.example.com/") =
    Normal (RequestOptions.mk (Value Http.get) "https://api.example.com/x").
Proof.
  split; [reflexivity|].
  exact (@X5_fill_idempotent node_ok
           (with_baseUrl "https://api.example.com/")
           (client_of node_ok "https://api.example.com/")
           (RequestOptions.mk Absent "/x")
           (RequestOptions.mk (Value Http.get) "https://api.example.com/x")
           eq_refl eq_refl).
Defined.

Lemma X6_filled_method_present_witness :
  @fillRequestOptionDefaults node_ok (RequestOptions.mk Undefined "/x")
    (limited_options "http://api.example.com") =
    Normal (RequestOptions.mk Undefined "http://api.example.com/x") /\
  (Undefined : prop Http.Method) <> Absent /\
  read (Undefined : prop Http.Method) = None.
Proof.
  split; [reflexivity|].
  pose (thm := @X6_filled_method_present node_ok
                 (RequestOptions.mk Undefined "/x")
                 (RequestOptions.mk Undefined "http://api.example.com/x")
                 (limited_options "http://api.example.com") eq_refl).
  split; [exact (proj1 thm)|exact (proj2 (proj2 thm) eq_refl)].
Defined.

Lemma X7_slash_runs_do_not_matter_witness :
  hasProtocol "v1/items" = false /\
  @fillRequestOptionDefaults node_ok
    (RequestOptions.mk Absent "//v1/items")
    (with_baseUrl "https://api.example.com///") =
  @fillRequestOptionDefaults node_ok
    (RequestOptions.mk Absent "v1/items")
    (with_baseUrl "https://api.example.com").
Proof.
  split; [reflexivity|].
  exact (@X7_slash_runs_do_not_matter node_ok Absent
           "https://api.example.com" "v1/items" 3 2 Absent Absent eq_refl).
Defined.

Lemma X8_one_joining_slash_witness :
  exists (t u : string) (n m : nat),
    "https://api.example.com//" = t ++ slashes n /\
    "///v1/items" = slashes m ++ u /\
    (forall t', t <> t' ++ "/") /\
    (forall u', u <> String "/" u') /\
    "https://api.example.com/v1/items" = t ++ "/" ++ u.
Proof.
  exact (@X8_one_joining_slash node_ok
           (RequestOptions.mk Absent "///v1/items")
           (RequestOptions.mk (Value Http.get)
              "https://api.example.com/v1/items")
           (with_baseUrl "https://api.example.com//")
           "https://api.example.com//" eq_refl eq_refl eq_refl).
Defined.

Lemma X9_empty_request_url_witness :
  exists filled,
    @fillRequestOptionDefaults node_ok (RequestOptions.mk Absent "")
      (with_baseUrl "https://api.example.com//") = Normal filled /\
    RequestOptions.url filled =
      strip_trailing_slashes "https://api.example.com//" ++ "/".
Proof.
  exact (@X9_empty_request_url node_ok Absent 0
           (with_baseUrl "https://api.example.com//")
           "https://api.example.com//" eq_refl).
Defined.

Lemma X10_constructor_accepts_witness :
  @constructor node_ok (WebClientOptions.mk Undefined Absent Absent) =
    Normal (WebClient.mk (WebClientOptions.mk Undefined Absent Absent)
              (@asyncRequest node_ok)) /\
  (@constructor node_ok (with_baseUrl "") =
     Throw (TypeError "`baseUrl` doesn't include a protocol") /\
   TypeError "`baseUrl` doesn't include a protocol" =
     (TypeError "`baseUrl` doesn't include a protocol" : @err node_ok) /\
   exists baseUrl,
     read (WebClientOptions.baseUrl (@with_baseUrl node_ok "")) =
       Some baseUrl /\
     hasProtocol baseUrl = false).
Proof.
  split.
  - apply (proj1 (proj2 (@X10_constructor_accepts node_ok
                           (WebClientOptions.mk Undefined Absent Absent))
                    eq_refl)).
    intros baseUrl Hb. discriminate Hb.
  - split; [reflexivity|].
    exact (proj2 (proj2 (@X10_constructor_accepts node_ok (with_baseUrl ""))
                    eq_refl)
             (TypeError "`baseUrl` doesn't include a protocol") eq_refl).
Defined.

Lemma X12_extend_twice_witness :
  @extend node_ok (bare_client node_ok)
    (Some (with_baseUrl "https://api.example.com")) =
    Normal (client_of node_ok "https://api.example.com") /\
  @extend node_ok (client_of node_ok "https://api.example.com")
    (Some (WebClientOptions.mk Absent (Value Http.post) Undefined)) =
  @extend node_ok (bare_client node_ok)
    (Some (WebClientOptions.mk (Value "https://api.example.com")
             (Value Http.post) Undefined)).
Proof.
  split; [reflexivity|].
  exact (@X12_extend_twice node_ok (bare_client node_ok)
           (client_of node_ok "https://api.example.com")
           (Some (with_baseUrl "https://api.example.com"))
           (Some (WebClientOptions.mk Absent (Value Http.post) Undefined))
           eq_refl).
Defined.

Lemma X13_extend_clears_baseUrl_witness :
  exists child,
    @extend node_ok (client_of node_ok "https://api.example.com")
      (Some (WebClientOptions.mk Undefined Absent Absent)) = Normal child /\
    @request node_ok child (RequestOptions.mk Absent "/x") [] =
      (Normal
         (Rejected
            (TypeError
               "`url` doesn't include a protocol and `baseUrl` isn't set")),
       []).
Proof.
  destruct (@X13_extend_clears_baseUrl node_ok
              (client_of node_ok "https://api.example.com"))
    as (child & Hchild & _ & _ & Hrequest).
  exists child. split; [exact Hchild|].
  exact (Hrequest (RequestOptions.mk Absent "/x") [] eq_refl).
Defined.

Lemma X14_rawData_is_the_chunks_in_order_witness :
  @asyncRequest node_ok "https://api.example.com/x"
    (InternalRequestOptions.mk (Some Http.get)) None true [] =
  (Normal (Fulfilled (InternalResponse.mk [] "hello" 200 "OK" [])),
   [ViaHttps "https://api.example.com/x"
      (InternalRequestOptions.mk (Some Http.get)) None]).
Proof.
  exact (@X14_rawData_is_the_chunks_in_order node_ok
           (list ascii) string_of_list_ascii
           "https://api.example.com/x"
           (InternalRequestOptions.mk (Some Http.get)) true
           []
           [ViaHttps "https://api.example.com/x"
              (InternalRequestOptions.mk (Some Http.get)) None]
           (IncomingMessage.mk [] 200 "OK" [])
           [["h"; "e"; "l"]; ["l"; "o"]]%char [] eq_refl).
Defined.

Lemma X15_throw_of_node_is_a_rejection_witness :
  @request (scripted (Throw (Other "ERR_INVALID_URL")))
    (bare_client (scripted (Throw (Other "ERR_INVALID_URL"))))
    (RequestOptions.mk Absent "http:") [] =
  (Normal (Rejected (Other "ERR_INVALID_URL")),
   [ViaHttp "http:" (InternalRequestOptions.mk (Some Http.get)) None]).
Proof.
  exact (@X15_throw_of_node_is_a_rejection
           (scripted (Throw (Other "ERR_INVALID_URL")))
           no_options
           (bare_client (scripted (Throw (Other "ERR_INVALID_URL"))))
           (RequestOptions.mk Absent "http:")
           (RequestOptions.mk (Value Http.get) "http:")
           []
           [ViaHttp "http:" (InternalRequestOptions.mk (Some Http.get)) None]
           (Other "ERR_INVALID_URL")
           eq_refl eq_refl eq_refl eq_refl).
Defined.

Lemma X16_fulfilled_only_after_end_witness :
  exists events response,
    @requestHttps node_ok "https://api.example.com/x"
      (InternalRequestOptions.mk (Some Http.get)) None [] =
      (Normal events,
       [ViaHttps "https://api.example.com/x"
          (InternalRequestOptions.mk (Some Http.get)) None]) /\
    In ResponseEnd events /\
    In (ResponseCallback response) events /\
    [] = IncomingMessage.headers response /\
    200%Z = IncomingMessage.statusCode response /\
    "OK" = IncomingMessage.statusMessage response /\
    [] = IncomingMessage.trailers response.
Proof.
  exact (@X16_fulfilled_only_after_end node_ok
           "https://api.example.com/x"
           (InternalRequestOptions.mk (Some Http.get)) None true
           []
           [ViaHttps "https://api.example.com/x"
              (InternalRequestOptions.mk (Some Http.get)) None]
           (InternalResponse.mk [] "hello" 200 "OK" [])
           eq_refl).
Defined.

Lemma X17_rejection_reasons_come_from_node_witness :
  @requestHttp node_refused "http://localhost:1/"
    (InternalRequestOptions.mk (Some Http.get)) None [] =
    (Throw (Other "ECONNREFUSED"),
     [ViaHttp "http://localhost:1/"
        (InternalRequestOptions.mk (Some Http.get)) None]) \/
  exists events,
    @requestHttp node_refused "http://localhost:1/"
      (InternalRequestOptions.mk (Some Http.get)) None [] =
      (Normal events,
       [ViaHttp "http://localhost:1/"
          (InternalRequestOptions.mk (Some Http.get)) None]) /\
    (In (RequestError (Other "ECONNREFUSED")) events \/
     In (ResponseError (Other "ECONNREFUSED")) events \/
     ((None : option string) <> None /\
      In (WriteCallback (Other "ECONNREFUSED")) events)).
Proof.
  exact (@X17_rejection_reasons_come_from_node node_refused
           "http://localhost:1/"
           (InternalRequestOptions.mk (Some Http.get)) None false
           []
           [ViaHttp "http://localhost:1/"
              (InternalRequestOptions.mk (Some Http.get)) None]
           (Other "ECONNREFUSED") eq_refl).
Defined.

Lemma X18_absolute_url_ignores_baseUrl_witness :
  hasProtocol "http://localhost/" = true /\
  @request node_ok (client_of node_ok "https://api.example.com")
    (RequestOptions.mk Absent "http://localhost/") [] =
  @request node_ok (bare_client node_ok)
    (RequestOptions.mk Absent "http://localhost/") [].
Proof.
  split; [reflexivity|].
  exact (@X18_absolute_url_ignores_baseUrl node_ok (@asyncRequest node_ok)
           (with_baseUrl "https://api.example.com") no_options
           (RequestOptions.mk Absent "http://localhost/") []
           eq_refl eq_refl).
Defined.

Lemma X19_Method_values_distinct_witness :
  Http.Method_value Http.post = "POST" /\ Http.post = Http.post.
Proof.
  split; [reflexivity|].
  exact (X19_Method_values_distinct Http.post Http.post eq_refl).
Defined.

Lemma X20_extend_keeping_baseUrl_succeeds_witness :
  @constructor node_ok (limited_options "http://api.example.com") =
    Normal (limited_client "http://api.example.com") /\
  exists child,
    @extend node_ok (limited_client "http://api.example.com")
      (Some (WebClientOptions.mk Absent (Value Http.post) Undefined)) =
      Normal child /\
    WebClientOptions.baseUrl (WebClient.options child) =
      Value "http://api.example.com" /\
    WebClient.requestFn child = @asyncRequest node_ok.
Proof.
  split; [reflexivity|].
  exact (@X20_extend_keeping_baseUrl_succeeds node_ok
           (limited_options "http://api.example.com")
           (limited_client "http://api.example.com")
           (WebClientOptions.mk Absent (Value Http.post) Undefined)
           eq_refl eq_refl eq_refl).
Defined.

Lemma X21_write_callback_rejects_witness :
  @asyncRequest
    (scripted
       (Normal
          [WriteCallback (Other "undefined");
           ResponseCallback (IncomingMessage.mk [] 200 "OK" []);
           ResponseData "hello"; ResponseEnd]))
    "http://api.example.com/x"
    (InternalRequestOptions.mk (Some Http.post)) (Some "payload") false [] =
  (Normal (Rejected (Other "undefined")),
   [ViaHttp "http://api.example.com/x"
      (InternalRequestOptions.mk (Some Http.post)) (Some "payload")]).
Proof.
  exact (@X21_write_callback_rejects
           (scripted
              (Normal
                 [WriteCallback (Other "undefined");
                  ResponseCallback (IncomingMessage.mk [] 200 "OK" []);
                  ResponseData "hello"; ResponseEnd]))
           "http://api.example.com/x"
           (InternalRequestOptions.mk (Some Http.post)) "payload" false
           []
           [ViaHttp "http://api.example.com/x"
              (InternalRequestOptions.mk (Some Http.post)) (Some "payload")]
           []
           [ResponseCallback (IncomingMessage.mk [] 200 "OK" []);
            ResponseData "hello"; ResponseEnd]
           (Other "undefined") eq_refl eq_refl).
Defined.
